(** * webworkerRenderingTest: the draw worker and the viewer's result gate

    A shallow embedding of [src/workers/Worker.ts] (the task queue, the
    cancellation slot, the draw executor, the dispatcher and its drain loop)
    and of the [onmessage] handler of [src/components/Viewer.tsx].

    The worker is single threaded: between two macrotasks of the JavaScript
    event loop nothing else runs, and continuations of promises that are
    already resolved run before the next macrotask.  The embedding therefore
    takes one macrotask as one step: either a message event ([onmessage]) or
    the firing of the [setTimeout(..., 0)] on which the drain loop is parked
    ([yieldToIncomingMessages]).  What the host decides inside a macrotask
    (one reading of the clock, [Math.random], the canvas) is an input of the
    step.

    Pixel coordinates and clock readings are integers ([Z]); the JavaScript
    remainder [%] is [Z.rem], whose sign follows the dividend.  JavaScript
    computes with doubles, which hold every integer up to 2^53 exactly: the
    arithmetic of the embedding is that of the code as long as the numbers
    stay within this range. *)

From Stdlib Require Import ZArith List String Bool Lia.
Import ListNotations.
Local Open Scope string_scope.
Local Open Scope list_scope.
Local Open Scope Z_scope.

(* ================================================================= *)
(** ** The task queue: [class AsyncQueue<T>] *)

Module AsyncQueue.
Section Queue.

(** [T] is the item type, [R] the type of the [resolve] functions of the
    promises handed out by [dequeue]. *)
Variables T R : Type.

Record t : Type := Build {
  queue : list T;        (* private queue: T[] *)
  resolvers : list R     (* private resolvers: ((value: T) => void)[] *)
}.

(** [constructor()] *)
Definition empty : t := Build [] [].

(** [enqueue(item)]: the new queue and, when a resolver was shifted off
    [resolvers], the call [resolver(item)] that was made. *)
Definition enqueue (item : T) (q : t) : t * option (R * T) :=
  match resolvers q with
  | resolver :: rest => (Build (queue q) rest, Some (resolver, item))
  | [] => (Build (queue q ++ [item]) (resolvers q), None)
  end.

(** What a call of [dequeue()] returns: a promise that is already resolved
    with an item, or a pending promise. *)
Inductive promise : Type :=
| Resolved (item : T)
| Pending.

(** [dequeue()]; [resolve] is the resolve function of the promise that is
    created when the buffer is empty. *)
Definition dequeue (resolve : R) (q : t) : t * promise :=
  match queue q with
  | item :: rest => (Build rest (resolvers q), Resolved item)
  | [] => (Build (queue q) (resolvers q ++ [resolve]), Pending)
  end.

(** [get items()] *)
Definition items (q : t) : list T := queue q.

(** The buffer and the list of waiting consumers are not both inhabited. *)
Definition exclusive (q : t) : Prop := queue q = [] \/ resolvers q = [].

End Queue.

Arguments Build {T R}.
Arguments queue {T R}.
Arguments resolvers {T R}.
Arguments empty {T R}.
Arguments enqueue {T R}.
Arguments Resolved {T}.
Arguments Pending {T}.
Arguments dequeue {T R}.
Arguments items {T R}.
Arguments exclusive {T R}.

End AsyncQueue.

(* ================================================================= *)
(** ** Messages and results ([src/types.ts], [src/workers/Worker.ts]) *)

Record Rectangle : Type := {
  x : Z;
  y : Z;
  width : Z;
  height : Z
}.

Record ImageDimensions : Type := {
  image_width : Z;
  image_height : Z
}.

(** The fields a [DrawMessage] carries besides its [action]. *)
Record DrawFields : Type := {
  imageDimensions : ImageDimensions;
  bufferWidth : Z;
  viewport : Rectangle
}.

(** [IncomingMesssage]: the worker reads [action] as a string and, for
    ["draw"], [imageDimensions] and [viewport]; an object posted without them
    has [fields = None]. *)
Record IncomingMesssage : Type := {
  action : string;
  fields : option DrawFields
}.

Definition CancelMessage : IncomingMesssage :=
  {| action := "cancel"; fields := None |}.

Definition DrawMessage (d : DrawFields) : IncomingMesssage :=
  {| action := "draw"; fields := Some d |}.

(** What has been painted on the off-screen canvas.  A tile is
    [fillRect(x, y, tileSize, tileSize)] in image coordinates, dark or white;
    the marker is the [#222288] square on the midpoint of the image.  The
    colour string of a dark tile is a floating point computation on the
    tile's position and is not evaluated. *)
Inductive CanvasOp : Type :=
| FillTile (tx ty : Z) (dark : bool)
| FillMarker (dims : ImageDimensions).

Record DrawResult : Type := {
  runId : string;
  timestamp : Z;
  result_viewport : Rectangle;
  bitmap : list CanvasOp
}.

(* ================================================================= *)
(** ** The worker: the body of [workerFunction] *)

Module Worker.

(** What the host answers during one macrotask. *)
Inductive CanvasHost : Type :=
| ConstructorThrows      (* [new OffscreenCanvas(w, h)] throws *)
| NoContext              (* [canvas.getContext("2d", ...)] is null *)
| Context2d.             (* a drawing context is returned *)

Record Host : Type := {
  now : Z;               (* [Date.now()], [performance.now()] *)
  random : string;       (* [Math.random().toString(36).substring(2, 15)] *)
  canvas : CanvasHost
}.

Inductive LogEntry : Type :=
| Warn (unknownAction : string)   (* console.warn("Unknown action:", ...) *)
| Error (error : string).        (* console.error("Error processing ...") *)

(** The place where the drain loop is parked between two macrotasks,
    with the local variables that are live there. *)
Inductive Control : Type :=
| Idle
    (* no [processQueue] call is running *)
| AwaitItem
    (* [await queue.dequeue()] on a pending promise *)
| InHeavy (myRunId : string) (startTime : Z) (args : option DrawFields)
    (* [await isCurrentRunCancelled(myRunId)] in simulateHeavyComputation *)
| InRows (myRunId : string) (args : DrawFields) (row : Z)
         (painted : list CanvasOp)
    (* [await isCurrentRunCancelled(myRunId)] after the tile row at [row] *)
| LoopYield.
    (* [await yieldToIncomingMessages()] at the end of a loop iteration *)

(** The resolve function of the promise on which the drain loop would
    wait in [dequeue]. *)
Inductive Resolver : Type := ResumeDrain.

Record t : Type := Build {
  queue : AsyncQueue.t IncomingMesssage Resolver;
  isProcessingMessages : bool;
  currentRunId : string;
  lastDrawResult : option DrawResult;
  queueProcessingStarted : Z;
  posted : list DrawResult;     (* the [postMessage] calls, oldest first *)
  console : list LogEntry;      (* oldest first *)
  parked : Control
}.

Definition initial : t :=
  Build AsyncQueue.empty false "" None 0 [] [] Idle.

Definition set_queue q (w : t) : t :=
  Build q (isProcessingMessages w) (currentRunId w) (lastDrawResult w)
        (queueProcessingStarted w) (posted w) (console w) (parked w).
Definition set_isProcessingMessages b (w : t) : t :=
  Build (queue w) b (currentRunId w) (lastDrawResult w)
        (queueProcessingStarted w) (posted w) (console w) (parked w).
Definition set_currentRunId id (w : t) : t :=
  Build (queue w) (isProcessingMessages w) id (lastDrawResult w)
        (queueProcessingStarted w) (posted w) (console w) (parked w).
Definition set_lastDrawResult r (w : t) : t :=
  Build (queue w) (isProcessingMessages w) (currentRunId w) r
        (queueProcessingStarted w) (posted w) (console w) (parked w).
Definition set_queueProcessingStarted z (w : t) : t :=
  Build (queue w) (isProcessingMessages w) (currentRunId w)
        (lastDrawResult w) z (posted w) (console w) (parked w).
Definition postMessage r (w : t) : t :=
  Build (queue w) (isProcessingMessages w) (currentRunId w)
        (lastDrawResult w) (queueProcessingStarted w) (posted w ++ [r])
        (console w) (parked w).
Definition log e (w : t) : t :=
  Build (queue w) (isProcessingMessages w) (currentRunId w)
        (lastDrawResult w) (queueProcessingStarted w) (posted w)
        (console w ++ [e]) (parked w).
Definition park k (w : t) : t :=
  Build (queue w) (isProcessingMessages w) (currentRunId w)
        (lastDrawResult w) (queueProcessingStarted w) (posted w)
        (console w) k.

(** How an awaited call leaves the macrotask. *)
Inductive Outcome : Type :=
| Returned (w : t)                  (* the call has returned *)
| Awaiting (w : t) (k : Control)    (* the call waits for a timer at [k] *)
| Threw (w : t) (error : string).   (* the call has thrown *)

Definition MAX_IMAGE_AGE_MS : Z := 250.

Definition cancelCurrentDraw (w : t) : t := set_currentRunId "" w.

(** [isCurrentRunCancelled(runId)], after its yield. *)
Definition isCurrentRunCancelled (runId : string) (w : t) : bool :=
  negb (currentRunId w =? runId)%string.

(** *** [draw] *)

Definition tileSize : Z := 40.
Definition durationMs : Z := 100.

Definition startY (v : Rectangle) : Z := y v - Z.rem (y v) tileSize.
Definition startX (v : Rectangle) : Z := x v - Z.rem (x v) tileSize.

(** [Math.floor(x / tileSize + y / tileSize) % 2 === 0]; over the reals
    [x / 40 + y / 40] is [(x + y) / 40]. *)
Definition isDark (tx ty : Z) : bool :=
  Z.rem ((tx + ty) / tileSize) 2 =? 0.

(** The inner loop
    [for (let x = startX; x < viewport.x + viewport.width; x += tileSize)];
    [fuel] bounds the number of iterations.  The bound and the steps are
    those of the code while [viewport.x + viewport.width] stays within
    2^53, beyond which JavaScript rounds them. *)
Fixpoint tile_row (fuel : nat) (tx limit ty : Z) : list CanvasOp :=
  match fuel with
  | O => []
  | S fuel' =>
      if tx <? limit
      then FillTile tx ty (isDark tx ty)
             :: tile_row fuel' (tx + tileSize) limit ty
      else []
  end.

Definition paint_row (v : Rectangle) (ty : Z) : list CanvasOp :=
  let limit := x v + width v in
  tile_row (Z.to_nat (limit - startX v)) (startX v) limit ty.

(** The end of [draw], from [ctx.fillStyle = "#222288"] on. *)
Definition draw_complete (h : Host) (myRunId : string) (args : DrawFields)
           (painted : list CanvasOp) (w : t) : Outcome :=
  let result := {| runId := myRunId;
                   timestamp := now h;
                   result_viewport := viewport args;
                   bitmap := painted ++ [FillMarker (imageDimensions args)] |} in
  let w1 := set_lastDrawResult (Some result) w in
  let w2 := postMessage result w1 in
  Returned (set_currentRunId
              (if (currentRunId w2 =? myRunId)%string
               then "" else currentRunId w2) w2).

(** The head of the loop
    [for (let y = startY; y < viewport.y + viewport.height; y += tileSize)]:
    paint the row and yield, or leave the loop. *)
Definition draw_rows (h : Host) (myRunId : string) (args : DrawFields)
           (row : Z) (painted : list CanvasOp) (w : t) : Outcome :=
  let v := viewport args in
  if row <? y v + height v
  then Awaiting w (InRows myRunId args row (painted ++ paint_row v row))
  else draw_complete h myRunId args painted w.

(** After [await isCurrentRunCancelled(myRunId)] in the row loop. *)
Definition resume_rows (h : Host) (myRunId : string) (args : DrawFields)
           (row : Z) (painted : list CanvasOp) (w : t) : Outcome :=
  if isCurrentRunCancelled myRunId w
  then Returned w
  else draw_rows h myRunId args (row + tileSize) painted w.

(** [draw] after [await simulateHeavyComputation(100, myRunId)]: the
    canvas, its context, and the first row.  Reading [viewport.width] of a
    message without fields throws. *)
Definition draw_render (h : Host) (myRunId : string)
           (args : option DrawFields) (w : t) : Outcome :=
  match args with
  | None => Threw w "TypeError"
  | Some a =>
      match canvas h with
      | ConstructorThrows => Threw w "OffscreenCanvas"
      | NoContext => Returned w
      | Context2d => draw_rows h myRunId a (startY (viewport a)) [] w
      end
  end.

(** The head of the loop of [simulateHeavyComputation]:
    [while (performance.now() - startTime < durationMs)]. *)
Definition simulateHeavyComputation (h : Host) (myRunId : string)
           (startTime : Z) (args : option DrawFields) (w : t) : Outcome :=
  if now h - startTime <? durationMs
  then Awaiting w (InHeavy myRunId startTime args)
  else draw_render h myRunId args w.

(** After [await isCurrentRunCancelled(myRunId)] in the heavy loop: a
    cancelled run returns from [simulateHeavyComputation] (and [draw] goes
    on), the others go round the loop. *)
Definition resume_heavy (h : Host) (myRunId : string) (startTime : Z)
           (args : option DrawFields) (w : t) : Outcome :=
  if isCurrentRunCancelled myRunId w
  then draw_render h myRunId args w
  else simulateHeavyComputation h myRunId startTime args w.

Definition draw (h : Host) (args : option DrawFields) (w : t) : Outcome :=
  let myRunId := random h in
  let w1 := set_currentRunId myRunId w in
  simulateHeavyComputation h myRunId (now h) args w1.

(** *** The handlers and the drain loop *)

Definition isDraw (msg : IncomingMesssage) : bool :=
  (action msg =? "draw")%string.

Definition handleDrawMessage (h : Host) (message : IncomingMesssage)
           (w : t) : Outcome :=
  if existsb isDraw (AsyncQueue.items (queue w))
  then Returned w
  else draw h (fields message) w.

Definition handleQueueMessage (h : Host) (message : IncomingMesssage)
           (w : t) : Outcome :=
  if (action message =? "draw")%string
  then handleDrawMessage h message w
  else Returned (log (Warn (action message)) w).

(** [finally { isProcessingMessages = false; queueProcessingStarted = 0 }],
    after which [processQueue] has returned. *)
Definition processQueue_finally (w : t) : t :=
  park Idle (set_queueProcessingStarted 0 (set_isProcessingMessages false w)).

(** The rest of an iteration of the loop of [processQueue] once
    [handleQueueMessage] has left the macrotask: the yield at the end of
    the iteration, or [catch] and [finally]. *)
Definition processQueue_iteration (o : Outcome) : t :=
  match o with
  | Returned w => park LoopYield w
  | Awaiting w k => park k w
  | Threw w error => processQueue_finally (log (Error error) w)
  end.

(** The head of [while (queue.items.length > 0)]. *)
Definition processQueue_loop (h : Host) (w : t) : t :=
  match AsyncQueue.items (queue w) with
  | [] => processQueue_finally w
  | _ :: _ =>
      match AsyncQueue.dequeue ResumeDrain (queue w) with
      | (q, AsyncQueue.Resolved message) =>
          processQueue_iteration (handleQueueMessage h message (set_queue q w))
      | (q, AsyncQueue.Pending) => park AwaitItem (set_queue q w)
      end
  end.

Definition processQueue (h : Host) (w : t) : t :=
  processQueue_loop h
    (set_queueProcessingStarted (now h) (set_isProcessingMessages true w)).

(** The condition [cancelByNewDrawRequest] of [self.onmessage]. *)
Definition cancelByNewDrawRequest (h : Host) (data : IncomingMesssage)
           (w : t) : bool :=
  (action data =? "draw")%string
  && ((now h - queueProcessingStarted w <? MAX_IMAGE_AGE_MS)
      || match lastDrawResult w with
         | Some r => now h <? timestamp r + MAX_IMAGE_AGE_MS
         | None => false
         end).

(** The first half of [self.onmessage]: "Process cancellations
    immediately". *)
Definition onmessage_cancel (h : Host) (data : IncomingMesssage) (w : t) : t :=
  let shouldCancel :=
    cancelByNewDrawRequest h data w || (action data =? "cancel")%string in
  if shouldCancel then cancelCurrentDraw w else w.

(** The second half: "Queue the messages for further processing".  A
    resolver woken by [enqueue] resumes the drain loop with the item, after
    the synchronous part of the handler.  The drain loop only calls
    [dequeue] on a non-empty buffer, so no resolver ever waits in a worker
    that started from [initial] (see [reachable_consistent]). *)
Definition onmessage_queue (h : Host) (data : IncomingMesssage) (w : t) : t :=
  let shouldQueue := negb (action data =? "cancel")%string in
  if shouldQueue then
    let (q, woken) := AsyncQueue.enqueue data (queue w) in
    let w1 := set_queue q w in
    let w2 := if isProcessingMessages w1 then w1 else processQueue h w1 in
    match woken with
    | Some (ResumeDrain, item) =>
        processQueue_iteration (handleQueueMessage h item w2)
    | None => w2
    end
  else w.

(** [self.onmessage]; an empty [action] is falsy. *)
Definition onmessage (h : Host) (data : IncomingMesssage) (w : t) : t :=
  if (action data =? "")%string then w
  else onmessage_queue h data (onmessage_cancel h data w).

(** The timer of the pending [yieldToIncomingMessages] fires. *)
Definition timer (h : Host) (w : t) : t :=
  match parked w with
  | Idle => w
  | AwaitItem => w
  | InHeavy myRunId startTime args =>
      processQueue_iteration (resume_heavy h myRunId startTime args w)
  | InRows myRunId args row painted =>
      processQueue_iteration (resume_rows h myRunId args row painted w)
  | LoopYield => processQueue_loop h w
  end.

Inductive Event : Type :=
| MessageEvent (data : IncomingMesssage)
| TimerFired.

Definition step (h : Host) (ev : Event) (w : t) : t :=
  match ev with
  | MessageEvent data => onmessage h data w
  | TimerFired => timer h w
  end.

(** A run of the event loop: the macrotasks in the order they happen. *)
Fixpoint run (trace : list (Host * Event)) (w : t) : t :=
  match trace with
  | [] => w
  | (h, ev) :: rest => run rest (step h ev w)
  end.

(** The drain loop is parked somewhere exactly while the processing flag
    is set, and nobody waits in [dequeue]. *)
Definition consistent (w : t) : Prop :=
  (isProcessingMessages w = false <-> parked w = Idle)
  /\ AsyncQueue.resolvers (queue w) = [].

Definition reachable (w : t) : Prop :=
  exists trace, w = run trace initial.

(** The draw requests in the buffer. *)
Definition bufferedDraws (w : t) : list IncomingMesssage :=
  filter isDraw (AsyncQueue.items (queue w)).

(** The call of the executor that a timer resumes, if it resumes one. *)
Definition resumed (h : Host) (w : t) : option Outcome :=
  match parked w with
  | InHeavy myRunId startTime args =>
      Some (resume_heavy h myRunId startTime args w)
  | InRows myRunId args row painted =>
      Some (resume_rows h myRunId args row painted w)
  | Idle | AwaitItem | LoopYield => None
  end.

Definition outcome_worker (o : Outcome) : t :=
  match o with
  | Returned w => w
  | Awaiting w _ => w
  | Threw w _ => w
  end.

(** The ways in which the run [myRunId], resumed on [w], leaves the
    macrotask: it has stopped without a trace, it waits again, it has
    thrown, or it has run to the end of [draw]. *)
Inductive run_leaves (h : Host) (myRunId : string) (w : t) : Outcome -> Prop :=
| leaves_stopped :
    run_leaves h myRunId w (Returned w)
| leaves_in_heavy startTime args :
    run_leaves h myRunId w (Awaiting w (InHeavy myRunId startTime args))
| leaves_in_rows args row painted :
    run_leaves h myRunId w (Awaiting w (InRows myRunId args row painted))
| leaves_thrown error :
    run_leaves h myRunId w (Threw w error)
| leaves_completed args painted :
    run_leaves h myRunId w (draw_complete h myRunId args painted w).

End Worker.

(* ================================================================= *)
(** ** The result gate: [workerRef.current.onmessage] of [Viewer.tsx] *)

Module Viewer.

Record t : Type := Build {
  drawResultRef : option DrawResult;
  isAnimationPendingRef : bool;
  requestedFrames : nat;          (* calls of [requestAnimationFrame] *)
  shown : option DrawResult;      (* the result of the last [drawImage] *)
  console : list Z                (* the differences that were logged *)
}.

Definition initial : t := Build None false 0 None [].

(** [updateCanvas()], up to the call of [requestAnimationFrame]. *)
Definition updateCanvas (v : t) : t :=
  if isAnimationPendingRef v then v
  else Build (drawResultRef v) true (S (requestedFrames v)) (shown v)
             (console v).

(** The callback given to [requestAnimationFrame]; [ready] says that the
    canvas element and its context are there. *)
Definition animationFrame (ready : bool) (v : t) : t :=
  match drawResultRef v with
  | Some r =>
      if ready
      then Build (drawResultRef v) false (requestedFrames v) (Some r)
                 (console v)
      else Build (drawResultRef v) false (requestedFrames v) (shown v)
                 (console v)
  | None =>
      Build (drawResultRef v) false (requestedFrames v) (shown v) (console v)
  end.

(** [workerRef.current.onmessage = (event) => ...] with
    [result = event.data]. *)
Definition onmessage (result : DrawResult) (v : t) : t :=
  let v1 :=
    match drawResultRef v with
    | Some current =>
        Build (drawResultRef v) (isAnimationPendingRef v)
              (requestedFrames v) (shown v)
              (console v ++ [timestamp result - timestamp current])
    | None => v
    end in
  match drawResultRef v1 with
  | Some current =>
      if timestamp current >? timestamp result
      then v1
      else updateCanvas
             (Build (Some result) (isAnimationPendingRef v1)
                    (requestedFrames v1) (shown v1) (console v1))
  | None =>
      updateCanvas
        (Build (Some result) (isAnimationPendingRef v1)
               (requestedFrames v1) (shown v1) (console v1))
  end.

(** The results delivered by the worker, in the order of delivery. *)
Definition deliver (results : list DrawResult) (v : t) : t :=
  fold_left (fun acc r => onmessage r acc) results v.

End Viewer.

(* ================================================================= *)
(** ** Sequences of calls and of events *)

(** [enqueue] called for each item in turn; the calls [resolver(item)] that
    were made, in the order they were made. *)
Fixpoint enqueue_all {T R : Type} (items : list T) (q : AsyncQueue.t T R)
  : AsyncQueue.t T R * list (R * T) :=
  match items with
  | [] => (q, [])
  | item :: rest =>
      let (q1, woken) := AsyncQueue.enqueue item q in
      let (q2, more) := enqueue_all rest q1 in
      (q2, match woken with Some call => call :: more | None => more end)
  end.

(** [dequeue] called once for each resolve function in turn; the promises
    that were returned, in the order of the calls. *)
Fixpoint dequeue_all {T R : Type} (resolves : list R) (q : AsyncQueue.t T R)
  : AsyncQueue.t T R * list (AsyncQueue.promise T) :=
  match resolves with
  | [] => (q, [])
  | resolve :: rest =>
      let (q1, p) := AsyncQueue.dequeue resolve q in
      let (q2, more) := dequeue_all rest q1 in
      (q2, p :: more)
  end.

(** Timers firing one after the other, each with its host answers. *)
Definition timers (hosts : list Worker.Host) : list (Worker.Host * Worker.Event) :=
  map (fun h => (h, Worker.TimerFired)) hosts.

(** Message events arriving one after the other. *)
Definition messages (arrivals : list (Worker.Host * IncomingMesssage))
  : list (Worker.Host * Worker.Event) :=
  map (fun a => (fst a, Worker.MessageEvent (snd a))) arrivals.

(** The clock never runs backwards along a trace that starts at [t0]. *)
Fixpoint clock_monotone (t0 : Z) (trace : list (Worker.Host * Worker.Event))
  : Prop :=
  match trace with
  | [] => True
  | (h, _) :: rest => t0 <= Worker.now h /\ clock_monotone (Worker.now h) rest
  end.

(** The timestamps of the results do not decrease, starting from [lo]. *)
Fixpoint ascending_from (lo : Z) (results : list DrawResult) : Prop :=
  match results with
  | [] => True
  | r :: rest => lo <= timestamp r /\ ascending_from (timestamp r) rest
  end.

(** The timestamp of the last result, [lo] when there is none. *)
Definition last_timestamp (lo : Z) (results : list DrawResult) : Z :=
  fold_left (fun _ r => timestamp r) results lo.

(** The run whose continuation is parked, if one is. *)
Definition parkedRun (k : Worker.Control) : option string :=
  match k with
  | Worker.InHeavy myRunId _ _ => Some myRunId
  | Worker.InRows myRunId _ _ _ => Some myRunId
  | Worker.Idle | Worker.AwaitItem | Worker.LoopYield => None
  end.

(** The row loop of [draw] has at least one iteration on this viewport. *)
Definition hasRows (v : Rectangle) : Prop :=
  Worker.startY v < y v + height v.

(** The run [id] is parked and the slot no longer holds its id; when it is
    still in the heavy loop, its viewport has a row to paint. *)
Definition cancelledRun (id : string) (w : Worker.t) : Prop :=
  parkedRun (Worker.parked w) = Some id
  /\ Worker.currentRunId w <> id
  /\ id <> ""
  /\ Worker.consistent w
  /\ match Worker.parked w with
     | Worker.InHeavy _ _ (Some args) => hasRows (viewport args)
     | _ => True
     end.

(** A message that [self.onmessage] puts into the queue. *)
Definition queueable (m : IncomingMesssage) : Prop :=
  action m <> "" /\ action m <> "cancel".

(** [self.onmessage] calls [processQueue] for this message: the action is
    neither falsy nor "cancel", and [isProcessingMessages] is not set. *)
Definition startsDrain (data : IncomingMesssage) (w : Worker.t) : bool :=
  negb (action data =? "")%string
  && negb (action data =? "cancel")%string
  && negb (Worker.isProcessingMessages w).

(** The clock of the macrotask in which the drain loop was last started:
    along the trace, which begins at the worker [w], or else [before]. *)
Fixpoint lastDrainStart (trace : list (Worker.Host * Worker.Event))
         (w : Worker.t) (before : option Z) : option Z :=
  match trace with
  | [] => before
  | (h, ev) :: rest =>
      lastDrainStart rest (Worker.step h ev w)
        match ev with
        | Worker.MessageEvent data =>
            if startsDrain data w then Some (Worker.now h) else before
        | Worker.TimerFired => before
        end
  end.

(** The gate drops every one of the results: the slot holds a result whose
    timestamp is greater than each of theirs (with an empty slot nothing is
    dropped). *)
Definition allDropped (results : list DrawResult) (v : Viewer.t) : Prop :=
  match Viewer.drawResultRef v with
  | Some c => Forall (fun r => timestamp c > timestamp r) results
  | None => results = []
  end.

(** The largest integer up to which every integer is a double. *)
Definition MAX_EXACT : Z := 2 ^ 53.

(** What holds of the worker between any two macrotasks: the drain loop is
    parked exactly while the flag is set and nobody waits in [dequeue]; the
    buffer holds queueable messages only; the slot is empty or holds the id
    of the parked run; the last result is the result posted last; the start
    time is reset while no drain loop runs. *)
Definition well_formed (w : Worker.t) : Prop :=
  Worker.consistent w
  /\ Forall queueable (AsyncQueue.items (Worker.queue w))
  /\ match parkedRun (Worker.parked w) with
     | Some id => Worker.currentRunId w = id \/ Worker.currentRunId w = ""
     | None => True
     end
  /\ Worker.lastDrawResult w = hd_error (rev (Worker.posted w))
  /\ (Worker.isProcessingMessages w = false ->
      Worker.queueProcessingStarted w = 0).

(* ================================================================= *)
(** ** The drag hook: [src/hooks/useDrag.ts] *)

Module Point.

Record t : Type := Build { x : Z; y : Z }.

Definition add (a b : t) : t := Build (x a + x b) (y a + y b).
Definition sub (a b : t) : t := Build (x a - x b) (y a - y b).
Definition zero : t := Build 0 0.

End Point.

Module UseDrag.

(** The state of the hook and the calls of its two callbacks.  Client
    coordinates are whole pixels, on which [Math.round] does nothing. *)
Record t : Type := Build {
  isDragging : bool;
  dragLastPositionRef : Point.t;
  totalDragDeltaRef : Point.t;
  onDrag : list Point.t;          (* the deltas given to [onDrag] *)
  onDragEnd : list Point.t        (* the totals given to [onDragEnd] *)
}.

Definition initial : t := Build false Point.zero Point.zero [] [].

Inductive MouseEvent : Type :=
| MouseDown (clientX clientY : Z)
| MouseMove (clientX clientY : Z)
| MouseUp
| MouseLeave.

Definition handleMouseDown (clientX clientY : Z) (s : t) : t :=
  Build true (Point.Build clientX clientY) Point.zero (onDrag s) (onDragEnd s).

Definition handleMouseMove (clientX clientY : Z) (s : t) : t :=
  if negb (isDragging s) then s
  else
    let currentDragDelta :=
      Point.Build (Point.x (dragLastPositionRef s) - clientX)
                  (Point.y (dragLastPositionRef s) - clientY) in
    Build (isDragging s) (Point.Build clientX clientY)
          (Point.add (totalDragDeltaRef s) currentDragDelta)
          (onDrag s ++ [currentDragDelta]) (onDragEnd s).

Definition handleMouseUp (s : t) : t :=
  if negb (isDragging s) then s
  else Build false (dragLastPositionRef s) (totalDragDeltaRef s) (onDrag s)
             (onDragEnd s ++ [totalDragDeltaRef s]).

Definition handleMouseLeave (s : t) : t :=
  Build false (dragLastPositionRef s) (totalDragDeltaRef s) (onDrag s)
        (onDragEnd s).

Definition handle (e : MouseEvent) (s : t) : t :=
  match e with
  | MouseDown clientX clientY => handleMouseDown clientX clientY s
  | MouseMove clientX clientY => handleMouseMove clientX clientY s
  | MouseUp => handleMouseUp s
  | MouseLeave => handleMouseLeave s
  end.

Definition handle_all (events : list MouseEvent) (s : t) : t :=
  fold_left (fun acc e => handle e acc) events s.

(** The mouse moving through the given positions. *)
Definition moves (positions : list Point.t) : list MouseEvent :=
  map (fun p => MouseMove (Point.x p) (Point.y p)) positions.

Definition sum (deltas : list Point.t) : Point.t :=
  fold_left Point.add deltas Point.zero.

Definition isMouseDown (e : MouseEvent) : bool :=
  match e with
  | MouseDown _ _ => true
  | _ => false
  end.

End UseDrag.

(* ================================================================= *)
(** ** The viewer's requests: [requestDraw] and [handleDrag] of [Viewer.tsx] *)

Module Requests.

Definition DRAW_MARGIN_PX : Z := 100.

(** The [action: "draw"] message of [requestDraw] for a viewer of the given
    size looking at [center].  The halves are whole pixels when the width and
    the height are even. *)
Definition requestDraw (width height : Z) (image : ImageDimensions)
           (center : Point.t) : IncomingMesssage :=
  let requestedViewportWidth := width + 2 * DRAW_MARGIN_PX in
  let requestedViewportHeight := height + 2 * DRAW_MARGIN_PX in
  DrawMessage
    {| imageDimensions := image;
       bufferWidth := DRAW_MARGIN_PX;
       viewport :=
         Build_Rectangle (Point.x center - requestedViewportWidth / 2)
                         (Point.y center - requestedViewportHeight / 2)
                         requestedViewportWidth requestedViewportHeight |}.

(** [handleDrag(delta)]: the new centre point and the message that is
    posted to the worker. *)
Definition handleDrag (width height : Z) (image : ImageDimensions)
           (delta : Point.t) (center : Point.t) : Point.t * IncomingMesssage :=
  let newCenterPoint := Point.add center delta in
  (newCenterPoint, requestDraw width height image newCenterPoint).

(** The centre after the drags, with the messages that were posted. *)
Fixpoint drag_all (width height : Z) (image : ImageDimensions)
         (deltas : list Point.t) (center : Point.t)
  : Point.t * list IncomingMesssage :=
  match deltas with
  | [] => (center, [])
  | delta :: rest =>
      let (c1, m) := handleDrag width height image delta center in
      let (c2, ms) := drag_all width height image rest c1 in
      (c2, m :: ms)
  end.

End Requests.

(* ================================================================= *)
(** ** The task queue *)

Section QueueFacts.

Variables T R : Type.
Implicit Types (q : AsyncQueue.t T R) (item : T) (resolve : R).

Lemma enqueue_queue_or_resolvers item q :
  AsyncQueue.exclusive q ->
  AsyncQueue.exclusive (fst (AsyncQueue.enqueue item q)).
Proof.
  unfold AsyncQueue.exclusive, AsyncQueue.enqueue.
  destruct q as [buffer waiting]; cbn.
  intros [Hq | Hr]; subst.
  - destruct waiting; cbn; [right | left]; reflexivity.
  - cbn. right. reflexivity.
Qed.

Lemma dequeue_queue_or_resolvers resolve q :
  AsyncQueue.exclusive q ->
  AsyncQueue.exclusive (fst (AsyncQueue.dequeue resolve q)).
Proof.
  unfold AsyncQueue.exclusive, AsyncQueue.dequeue.
  destruct q as [buffer waiting]; cbn.
  intros [Hq | Hr]; subst.
  - cbn. left. reflexivity.
  - destruct buffer; cbn; [left | right]; reflexivity.
Qed.

End QueueFacts.

(** C8.  [enqueue] gives the item to the first waiting resolver, and to that
    one only, leaving the buffer as it is; with no resolver waiting it
    appends the item to the buffer.  [dequeue] takes the head of a non-empty
    buffer at once; on an empty buffer it returns a pending promise whose
    resolver joins the waiting ones, and the next item enqueued resolves the
    longest waiting promise. *)
Theorem asyncQueue_enqueue_dequeue :
  forall (T R : Type) (buffer : list T) (waiting : list R)
         (item head : T) (first resolve : R),
    AsyncQueue.enqueue item (AsyncQueue.Build buffer (first :: waiting))
      = (AsyncQueue.Build buffer waiting, Some (first, item))
    /\ AsyncQueue.enqueue item (AsyncQueue.Build buffer (@nil R))
      = (AsyncQueue.Build (buffer ++ [item]) [], None)
    /\ AsyncQueue.dequeue resolve (AsyncQueue.Build (head :: buffer) waiting)
      = (AsyncQueue.Build buffer waiting, AsyncQueue.Resolved head)
    /\ AsyncQueue.dequeue resolve (AsyncQueue.Build (@nil T) waiting)
      = (AsyncQueue.Build [] (waiting ++ [resolve]), AsyncQueue.Pending)
    /\ AsyncQueue.enqueue item
         (fst (AsyncQueue.dequeue resolve (AsyncQueue.Build (@nil T) waiting)))
      = (AsyncQueue.Build [] (tl (waiting ++ [resolve])),
         Some (hd resolve waiting, item)).
Proof.
  intros. repeat split.
  destruct waiting; reflexivity.
Qed.

(** C10.  A queue whose buffer and list of resolvers are not both non-empty
    is still such a queue after [enqueue] and after [dequeue]. *)
Theorem asyncQueue_exclusive_preserved :
  forall (T R : Type) (q : AsyncQueue.t T R) (item : T) (resolve : R),
    AsyncQueue.exclusive q ->
    AsyncQueue.exclusive (fst (AsyncQueue.enqueue item q))
    /\ AsyncQueue.exclusive (fst (AsyncQueue.dequeue resolve q)).
Proof.
  intros T R q item resolve H. split.
  - now apply enqueue_queue_or_resolvers.
  - now apply dequeue_queue_or_resolvers.
Qed.

Lemma asyncQueue_exclusive_preserved_witness :
  AsyncQueue.exclusive (AsyncQueue.Build [1; 2]%nat (@nil bool))
  /\ AsyncQueue.exclusive
       (fst (AsyncQueue.enqueue 3%nat (AsyncQueue.Build [1; 2]%nat (@nil bool))))
  /\ AsyncQueue.exclusive
       (fst (AsyncQueue.dequeue true (AsyncQueue.Build [1; 2]%nat (@nil bool)))).
Proof.
  assert (H : AsyncQueue.exclusive (AsyncQueue.Build [1; 2]%nat (@nil bool)))
    by (right; reflexivity).
  split; [exact H |].
  exact (asyncQueue_exclusive_preserved nat bool
           (AsyncQueue.Build [1; 2]%nat (@nil bool)) 3%nat true H).
Defined.

(** The queue of a new worker is empty, hence exclusive. *)
Lemma asyncQueue_empty_exclusive (T R : Type) :
  @AsyncQueue.exclusive T R AsyncQueue.empty.
Proof. left. reflexivity. Qed.

(* ================================================================= *)
(** ** The tile origin of [draw] *)


Lemma startY_multiple (v : Rectangle) :
  Worker.startY v = Worker.tileSize * (y v ÷ Worker.tileSize).
Proof.
  unfold Worker.startY.
  pose proof (Z.quot_rem' (y v) Worker.tileSize). lia.
Qed.

(** On a viewport whose corner has no negative coordinate the origin is the
    multiple of the tile size at or before the corner. *)
Lemma tile_origin_nonnegative (v : Rectangle) :
  0 <= x v -> 0 <= y v ->
  (Worker.startX v <= x v < Worker.startX v + Worker.tileSize)
  /\ (Worker.startY v <= y v < Worker.startY v + Worker.tileSize).
Proof.
  intros Hx Hy. unfold Worker.startX, Worker.startY, Worker.tileSize.
  pose proof (Z.rem_bound_pos (x v) 40 Hx ltac:(lia)).
  pose proof (Z.rem_bound_pos (y v) 40 Hy ltac:(lia)).
  lia.
Qed.

(** The origin is at or before the corner exactly when the coordinate is not
    negative or lies on the tile grid. *)
Lemma startX_at_or_before (v : Rectangle) :
  Worker.startX v <= x v <-> (0 <= x v \/ Z.rem (x v) Worker.tileSize = 0).
Proof.
  unfold Worker.startX, Worker.tileSize.
  destruct (Z.le_gt_cases 0 (x v)) as [Hx | Hx].
  - pose proof (Z.rem_bound_pos (x v) 40 Hx ltac:(lia)). lia.
  - pose proof (Z.rem_nonpos (x v) 40 ltac:(lia) ltac:(lia)). lia.
Qed.

(** The fuel that [paint_row] gives to the inner loop is enough: with more
    fuel the loop paints the same tiles. *)
Lemma tile_row_fuel (fuel : nat) :
  forall (tx limit ty : Z) (more : nat),
    limit - tx <= Z.of_nat fuel ->
    Worker.tile_row (fuel + more) tx limit ty = Worker.tile_row fuel tx limit ty.
Proof.
  induction fuel as [|fuel IH]; intros tx limit ty more Hle.
  - destruct more as [|more]; [reflexivity |]. cbn.
    destruct (Z.ltb_spec tx limit); [lia | reflexivity].
  - cbn [Nat.add Worker.tile_row].
    destruct (tx <? limit); [| reflexivity].
    f_equal. apply IH. unfold Worker.tileSize. lia.
Qed.

Lemma paint_row_fuel (v : Rectangle) (ty : Z) (more : nat) :
  Worker.tile_row (Z.to_nat (x v + width v - Worker.startX v) + more)
    (Worker.startX v) (x v + width v) ty
  = Worker.paint_row v ty.
Proof. unfold Worker.paint_row. apply tile_row_fuel. lia. Qed.

(** C5.  For the viewport that [requestDraw] sends once the centre has been
    dragged to (490, 390), whose corner is (-10, -10), [draw] starts the
    tiling at (0, 0): a multiple of the tile size, but after the corner and
    not at or before it, so that the first tile of a row is painted at 0. *)
Theorem tile_origin_negative_corner :
  let v := {| x := -10; y := -10; width := 1000; height := 800 |} in
  Worker.startX v = 0 /\ Worker.startY v = 0
  /\ x v < Worker.startX v /\ y v < Worker.startY v
  /\ hd_error (Worker.paint_row v (Worker.startY v)) = Some (FillTile 0 0 true).
Proof. cbv zeta. repeat split; vm_compute; reflexivity. Qed.

(* ================================================================= *)
(** ** The result gate *)

Lemma gate_step_some (c r : DrawResult) p n sh lg :
  Viewer.drawResultRef (Viewer.onmessage r (Viewer.Build (Some c) p n sh lg))
  = Some (if timestamp c >? timestamp r then c else r).
Proof.
  unfold Viewer.onmessage, Viewer.updateCanvas; cbn.
  destruct (timestamp c >? timestamp r); cbn; [reflexivity |].
  destruct p; reflexivity.
Qed.

Lemma gate_step_none (r : DrawResult) p n sh lg :
  Viewer.drawResultRef (Viewer.onmessage r (Viewer.Build None p n sh lg))
  = Some r.
Proof.
  unfold Viewer.onmessage, Viewer.updateCanvas; cbn. destruct p; reflexivity.
Qed.

(** What the slot holds after any deliveries: one of the results delivered or
    the result held before, with a timestamp that none of them exceeds. *)
Lemma gate_deliver (results : list DrawResult) :
  forall v,
    match Viewer.drawResultRef (Viewer.deliver results v) with
    | Some c =>
        (In c results \/ Viewer.drawResultRef v = Some c)
        /\ Forall (fun r => timestamp r <= timestamp c) results
        /\ match Viewer.drawResultRef v with
           | Some c0 => timestamp c0 <= timestamp c
           | None => True
           end
    | None => results = [] /\ Viewer.drawResultRef v = None
    end.
Proof.
  induction results as [|r rest IH]; intros v.
  - cbn. destruct (Viewer.drawResultRef v) eqn:E; auto using Z.le_refl.
  - change (Viewer.deliver (r :: rest) v)
      with (Viewer.deliver rest (Viewer.onmessage r v)).
    specialize (IH (Viewer.onmessage r v)).
    destruct (Viewer.drawResultRef (Viewer.deliver rest (Viewer.onmessage r v)))
      as [c|] eqn:E.
    + destruct IH as (Hin & Hall & Hge).
      destruct v as [[c0|] p n sh lg].
      * rewrite gate_step_some in Hin, Hge.
        cbn [Viewer.drawResultRef].
        destruct (timestamp c0 >? timestamp r) eqn:Hcmp.
        -- apply Z.gtb_lt in Hcmp. repeat split.
           ++ destruct Hin as [Hin | Hin]; [left; now right | now right].
           ++ constructor; [lia | exact Hall].
           ++ exact Hge.
        -- assert (timestamp c0 <= timestamp r).
           { destruct (Z.gtb_spec (timestamp c0) (timestamp r));
               [discriminate | lia]. }
           repeat split.
           ++ destruct Hin as [Hin | Hin]; left; [now right |].
              left. congruence.
           ++ constructor; [lia | exact Hall].
           ++ lia.
      * rewrite gate_step_none in Hin, Hge. cbn [Viewer.drawResultRef].
        repeat split.
        -- destruct Hin as [Hin | Hin]; left; [now right |].
           left. congruence.
        -- constructor; [lia | exact Hall].
    + destruct IH as (_ & Hnone).
      destruct v as [[c0|] p n sh lg].
      * rewrite gate_step_some in Hnone. discriminate.
      * rewrite gate_step_none in Hnone. discriminate.
Qed.

(** C1 as the code has it.  An incoming result is dropped exactly when the
    slot holds a result with a strictly greater timestamp; a result with an
    equal or a greater timestamp replaces it, and the first result is always
    taken.  After any sequence of deliveries the slot holds one of the
    results, none of the delivered results has a greater timestamp, and the
    timestamp in the slot has not decreased. *)
Theorem gate_admits_unless_strictly_older :
  (forall (c r : DrawResult) p n sh lg,
      Viewer.drawResultRef
        (Viewer.onmessage r (Viewer.Build (Some c) p n sh lg))
      = Some (if timestamp c >? timestamp r then c else r))
  /\ (forall (r : DrawResult) p n sh lg,
         Viewer.drawResultRef (Viewer.onmessage r (Viewer.Build None p n sh lg))
         = Some r)
  /\ (forall (results : list DrawResult) (v : Viewer.t),
         match Viewer.drawResultRef (Viewer.deliver results v) with
         | Some c =>
             (In c results \/ Viewer.drawResultRef v = Some c)
             /\ Forall (fun r => timestamp r <= timestamp c) results
             /\ match Viewer.drawResultRef v with
                | Some c0 => timestamp c0 <= timestamp c
                | None => True
                end
         | None => results = [] /\ Viewer.drawResultRef v = None
         end).
Proof.
  split; [exact gate_step_some |].
  split; [exact gate_step_none |].
  intros results v. apply gate_deliver.
Qed.

(** C1 as the spec has it fails on a tie: a second result with the timestamp
    of the admitted one is not dropped, it replaces the admitted one. *)
Lemma gate_admits_tie :
  let first := {| runId := "a"; timestamp := 5;
                  result_viewport := Build_Rectangle 0 0 800 600;
                  bitmap := [] |} in
  let second := {| runId := "b"; timestamp := 5;
                   result_viewport := Build_Rectangle 40 0 800 600;
                   bitmap := [] |} in
  Viewer.drawResultRef (Viewer.deliver [first] Viewer.initial) = Some first
  /\ timestamp second <= timestamp first
  /\ Viewer.drawResultRef (Viewer.deliver [first; second] Viewer.initial)
     = Some second
  /\ second <> first.
Proof.
  cbv zeta. repeat split; vm_compute; congruence.
Qed.

(* ================================================================= *)
(** ** The dispatcher: [self.onmessage] *)

Section Dispatcher.

Import Worker.

Implicit Types (h : Host) (w : Worker.t) (data : IncomingMesssage).

Lemma cancelByNewDrawRequest_spec h data w :
  cancelByNewDrawRequest h data w = true <->
  action data = "draw"
  /\ (now h - queueProcessingStarted w < MAX_IMAGE_AGE_MS
      \/ exists r, lastDrawResult w = Some r
                   /\ now h < timestamp r + MAX_IMAGE_AGE_MS).
Proof.
  unfold cancelByNewDrawRequest.
  rewrite andb_true_iff, orb_true_iff, String.eqb_eq, Z.ltb_lt.
  destruct (lastDrawResult w) as [r|].
  - rewrite Z.ltb_lt. split.
    + intros [Ha [Hb | Hb]]; split; auto. right. exists r. auto.
    + intros [Ha [Hb | (r' & Hr & Hb)]]; split; auto.
      right. congruence.
  - split.
    + intros [Ha [Hb | Hb]]; [auto | discriminate].
    + intros [Ha [Hb | (r' & Hr & Hb)]]; [auto | discriminate].
Qed.

(** A message that is not a cancel, arriving while the drain loop runs and
    nobody waits in [dequeue], is appended to the buffer and nothing else
    happens in the second half of the handler. *)
Lemma onmessage_queue_processing h data w :
  action data <> "cancel" ->
  isProcessingMessages w = true ->
  AsyncQueue.resolvers (queue w) = [] ->
  onmessage_queue h data w
  = set_queue (AsyncQueue.Build (AsyncQueue.queue (queue w) ++ [data]) []) w.
Proof.
  intros Hc Hp Hr. unfold onmessage_queue.
  apply String.eqb_neq in Hc. rewrite Hc. cbn [negb].
  unfold AsyncQueue.enqueue. rewrite Hr. cbn. rewrite Hp. reflexivity.
Qed.

End Dispatcher.

(** C6.  A message whose action is "cancel" only clears the current-run
    slot: it is not enqueued, the drain loop is neither started nor resumed,
    and nothing is posted or logged.  When the slot is already empty the
    worker is left exactly as it was, so every later run of the event loop
    goes on as it would have without the cancel. *)
Theorem cancel_clears_slot_only :
  forall (h : Worker.Host) (data : IncomingMesssage) (w : Worker.t),
    action data = "cancel" ->
    Worker.onmessage h data w = Worker.cancelCurrentDraw w
    /\ Worker.currentRunId (Worker.onmessage h data w) = ""
    /\ Worker.queue (Worker.onmessage h data w) = Worker.queue w
    /\ Worker.posted (Worker.onmessage h data w) = Worker.posted w
    /\ Worker.console (Worker.onmessage h data w) = Worker.console w
    /\ Worker.parked (Worker.onmessage h data w) = Worker.parked w
    /\ Worker.isProcessingMessages (Worker.onmessage h data w)
       = Worker.isProcessingMessages w
    /\ (Worker.currentRunId w = "" ->
        Worker.onmessage h data w = w
        /\ forall trace,
            Worker.run trace (Worker.onmessage h data w) = Worker.run trace w).
Proof.
  intros h data w Ha.
  assert (E : Worker.onmessage h data w = Worker.cancelCurrentDraw w).
  { unfold Worker.onmessage, Worker.onmessage_cancel, Worker.onmessage_queue.
    rewrite Ha. cbn. rewrite orb_true_r. reflexivity. }
  rewrite E. repeat split.
  - destruct w; cbn in *; subst; reflexivity.
  - destruct w; cbn in *; subst; reflexivity.
Qed.

Lemma cancel_clears_slot_only_witness :
  let h := Worker.Build_Host 1000 "r1" Worker.Context2d in
  action CancelMessage = "cancel"
  /\ Worker.currentRunId Worker.initial = ""
  /\ Worker.onmessage h CancelMessage Worker.initial = Worker.initial.
Proof.
  cbv zeta. split; [reflexivity |]. split; [reflexivity |].
  exact (proj1 (proj2 (proj2 (proj2 (proj2 (proj2 (proj2 (proj2
    (cancel_clears_slot_only (Worker.Build_Host 1000 "r1" Worker.Context2d)
       CancelMessage Worker.initial eq_refl))))))) eq_refl)).
Defined.

(** The decision of the handler in terms of the fields of the worker: for a
    message whose action is "draw" the first half of the handler calls
    [cancelCurrentDraw] when the clock is less than 250 ms past the field
    [queueProcessingStarted] or less than 250 ms past the timestamp of the
    last completed result, and leaves the worker alone otherwise. *)
Theorem draw_preempts_iff_recent :
  forall (h : Worker.Host) (data : IncomingMesssage) (w : Worker.t),
    action data = "draw" ->
    let recent :=
      Worker.now h - Worker.queueProcessingStarted w < 250
      \/ exists r, Worker.lastDrawResult w = Some r
                   /\ Worker.now h < timestamp r + 250 in
    (recent ->
     Worker.onmessage_cancel h data w = Worker.cancelCurrentDraw w
     /\ Worker.onmessage h data w
        = Worker.onmessage_queue h data (Worker.cancelCurrentDraw w))
    /\ (~ recent ->
        Worker.onmessage_cancel h data w = w
        /\ Worker.onmessage h data w = Worker.onmessage_queue h data w)
    /\ (Worker.isProcessingMessages w = true ->
        AsyncQueue.resolvers (Worker.queue w) = [] ->
        Worker.currentRunId w <> "" ->
        (Worker.currentRunId (Worker.onmessage h data w) = "" <-> recent)).
Proof.
  intros h data w Ha recent.
  pose proof (cancelByNewDrawRequest_spec h data w) as Hspec.
  change Worker.MAX_IMAGE_AGE_MS with 250 in Hspec. fold recent in Hspec.
  assert (Hon : Worker.onmessage h data w
                = Worker.onmessage_queue h data (Worker.onmessage_cancel h data w)).
  { unfold Worker.onmessage. rewrite Ha. reflexivity. }
  assert (Hyes : recent ->
                 Worker.onmessage_cancel h data w = Worker.cancelCurrentDraw w).
  { intros Hr. unfold Worker.onmessage_cancel.
    replace (Worker.cancelByNewDrawRequest h data w) with true
      by (symmetry; apply Hspec; auto).
    reflexivity. }
  assert (Hno : ~ recent -> Worker.onmessage_cancel h data w = w).
  { intros Hr. unfold Worker.onmessage_cancel.
    destruct (Worker.cancelByNewDrawRequest h data w) eqn:E.
    - exfalso. apply Hr. now apply Hspec.
    - rewrite Ha. reflexivity. }
  split; [| split].
  - intros Hr. rewrite Hon, (Hyes Hr). auto.
  - intros Hr. rewrite Hon, (Hno Hr). auto.
  - intros Hp Hres Hid. rewrite Hon.
    assert (Hc : action data <> "cancel") by (rewrite Ha; discriminate).
    destruct (Worker.cancelByNewDrawRequest h data w) eqn:E.
    + assert (Hr : recent) by now apply Hspec.
      rewrite (Hyes Hr).
      rewrite onmessage_queue_processing by assumption.
      split; [auto | reflexivity].
    + assert (Hr : ~ recent).
      { intros Hr. assert (false = true) by (apply Hspec; auto).
        discriminate. }
      rewrite (Hno Hr).
      rewrite onmessage_queue_processing by assumption.
      cbn. split; [intros; contradiction | intros; contradiction].
Qed.

Lemma draw_preempts_iff_recent_witness :
  let d := {| imageDimensions := Build_ImageDimensions 10000 10000;
              bufferWidth := 100;
              viewport := Build_Rectangle 0 0 1000 800 |} in
  let w := Worker.Build (AsyncQueue.Build [] []) true "r1" None 1000 [] []
             (Worker.InHeavy "r1" 1000 (Some d)) in
  Worker.currentRunId
    (Worker.onmessage (Worker.Build_Host 1100 "r2" Worker.Context2d)
       (DrawMessage d) w) = ""
  /\ Worker.onmessage (Worker.Build_Host 2000 "r2" Worker.Context2d)
       (DrawMessage d) w
     = Worker.onmessage_queue (Worker.Build_Host 2000 "r2" Worker.Context2d)
         (DrawMessage d) w.
Proof.
  intros d w. split.
  - apply (proj2 (proj2 (draw_preempts_iff_recent
             (Worker.Build_Host 1100 "r2" Worker.Context2d)
             (DrawMessage d) w eq_refl))).
    + reflexivity.
    + reflexivity.
    + discriminate.
    + left. cbn. lia.
  - apply (proj1 (proj2 (draw_preempts_iff_recent
             (Worker.Build_Host 2000 "r2" Worker.Context2d)
             (DrawMessage d) w eq_refl))).
    intros [H | (r & Hr & _)]; [cbn in H; lia | discriminate].
Defined.

(* ================================================================= *)
(** ** The drain loop and the draw executor *)

Section DrainLoop.

Import Worker.

Implicit Types (h : Host) (w : Worker.t) (data : IncomingMesssage).

(** A run that starts never leaves the heavy loop in the macrotask in
    which it starts. *)
Lemma draw_starts_heavy h args w :
  draw h args w
  = Awaiting (set_currentRunId (random h) w)
      (InHeavy (random h) (now h) args).
Proof.
  unfold draw, simulateHeavyComputation. rewrite Z.sub_diag. reflexivity.
Qed.

(** What the loop head does with a draw request at the head of the buffer. *)
Lemma processQueue_loop_draw h message rest w :
  queue w = AsyncQueue.Build (message :: rest) [] ->
  action message = "draw" ->
  processQueue_loop h w
  = if existsb isDraw rest
    then park LoopYield (set_queue (AsyncQueue.Build rest []) w)
    else park (InHeavy (random h) (now h) (fields message))
           (set_currentRunId (random h)
              (set_queue (AsyncQueue.Build rest []) w)).
Proof.
  intros Hq Ha.
  unfold processQueue_loop, AsyncQueue.items, AsyncQueue.dequeue.
  rewrite Hq. cbn.
  unfold handleQueueMessage. rewrite Ha. cbn.
  unfold handleDrawMessage. cbn.
  destruct (existsb isDraw rest); [reflexivity |].
  rewrite draw_starts_heavy. reflexivity.
Qed.

(** The second half of the handler never takes anything but the head off
    the buffer it has appended to. *)
Lemma onmessage_queue_idle_items h data w :
  action data <> "cancel" ->
  isProcessingMessages w = false ->
  AsyncQueue.resolvers (queue w) = [] ->
  AsyncQueue.items (queue (onmessage_queue h data w))
  = tl (AsyncQueue.items (queue w) ++ [data]).
Proof.
  intros Hc Hp Hr. unfold onmessage_queue.
  apply String.eqb_neq in Hc. rewrite Hc. cbn [negb].
  unfold AsyncQueue.enqueue. rewrite Hr. cbn. rewrite Hp.
  unfold processQueue, processQueue_loop, AsyncQueue.items,
    AsyncQueue.dequeue. cbn.
  destruct (AsyncQueue.queue (queue w) ++ [data]) as [|m rest] eqn:E.
  - destruct (AsyncQueue.queue (queue w)); discriminate.
  - cbn. unfold handleQueueMessage, handleDrawMessage.
    destruct (action m =? "draw")%string; cbn; [| reflexivity].
    destruct (existsb isDraw rest); cbn; [reflexivity |].
    rewrite draw_starts_heavy. reflexivity.
Qed.

End DrainLoop.

(** C2 as the code has it.  A draw request is always enqueued, also when the
    buffer already holds one: while the drain loop runs it is appended to the
    buffer, and on an idle worker the drain loop is started on the buffer it
    was appended to and takes the head.  Collapsing happens when a draw
    request is taken from the buffer: it is skipped without starting a run
    when a draw request is still buffered behind it, and it starts a run
    otherwise; the request in flight is not in the buffer. *)
Theorem draws_collapse_at_dispatch :
  (forall (h : Worker.Host) (data : IncomingMesssage) (w : Worker.t),
      action data = "draw" ->
      AsyncQueue.resolvers (Worker.queue w) = [] ->
      (Worker.isProcessingMessages w = true ->
       AsyncQueue.items (Worker.queue (Worker.onmessage h data w))
       = AsyncQueue.items (Worker.queue w) ++ [data])
      /\ (Worker.isProcessingMessages w = false ->
          AsyncQueue.items (Worker.queue (Worker.onmessage h data w))
          = tl (AsyncQueue.items (Worker.queue w) ++ [data])))
  /\ (forall (h : Worker.Host) (message : IncomingMesssage)
             (rest : list IncomingMesssage) (w : Worker.t),
         Worker.queue w = AsyncQueue.Build (message :: rest) [] ->
         action message = "draw" ->
         AsyncQueue.items (Worker.queue (Worker.processQueue_loop h w)) = rest
         /\ (existsb Worker.isDraw rest = true ->
             Worker.processQueue_loop h w
             = Worker.park Worker.LoopYield
                 (Worker.set_queue (AsyncQueue.Build rest []) w))
         /\ (existsb Worker.isDraw rest = false ->
             Worker.currentRunId (Worker.processQueue_loop h w)
             = Worker.random h
             /\ Worker.parked (Worker.processQueue_loop h w)
                = Worker.InHeavy (Worker.random h) (Worker.now h)
                    (fields message))).
Proof.
  split.
  - intros h data w Ha Hr.
    assert (Hc : action data <> "cancel") by (rewrite Ha; discriminate).
    assert (Hon : Worker.onmessage h data w
                  = Worker.onmessage_queue h data
                      (Worker.onmessage_cancel h data w)).
    { unfold Worker.onmessage. rewrite Ha. reflexivity. }
    assert (Hsame : forall w0, Worker.onmessage_cancel h data w = w0 ->
              Worker.queue w0 = Worker.queue w
              /\ Worker.isProcessingMessages w0 = Worker.isProcessingMessages w).
    { intros w0 <-. unfold Worker.onmessage_cancel.
      destruct (_ || _); split; reflexivity. }
    destruct (Hsame _ eq_refl) as [Hq Hp].
    rewrite Hon. split; intros Hproc.
    + rewrite onmessage_queue_processing by congruence.
      cbn. unfold AsyncQueue.items. now rewrite Hq.
    + rewrite onmessage_queue_idle_items by congruence.
      unfold AsyncQueue.items. now rewrite Hq.
  - intros h message rest w Hq Ha.
    rewrite (processQueue_loop_draw h message rest w Hq Ha).
    destruct (existsb Worker.isDraw rest); repeat split; try discriminate;
      reflexivity.
Qed.

Lemma draws_collapse_at_dispatch_witness :
  let d := {| imageDimensions := Build_ImageDimensions 10000 10000;
              bufferWidth := 100;
              viewport := Build_Rectangle 0 0 1000 800 |} in
  let h := Worker.Build_Host 1002 "r2" Worker.Context2d in
  let busy := Worker.Build (AsyncQueue.Build [DrawMessage d] []) true "r1"
                None 1000 [] [] (Worker.InHeavy "r1" 1000 (Some d)) in
  let yielded := Worker.Build (AsyncQueue.Build [DrawMessage d; DrawMessage d] [])
                   true "" None 1000 [] [] Worker.LoopYield in
  let last := Worker.Build (AsyncQueue.Build [DrawMessage d] [])
                true "" None 1000 [] [] Worker.LoopYield in
  AsyncQueue.items (Worker.queue (Worker.onmessage h (DrawMessage d) busy))
  = [DrawMessage d; DrawMessage d]
  /\ AsyncQueue.items
       (Worker.queue (Worker.onmessage h (DrawMessage d) Worker.initial)) = []
  /\ Worker.processQueue_loop h yielded
     = Worker.park Worker.LoopYield
         (Worker.set_queue (AsyncQueue.Build [DrawMessage d] []) yielded)
  /\ Worker.currentRunId (Worker.processQueue_loop h last) = "r2".
Proof.
  intros d h busy yielded last.
  pose proof (draws_collapse_at_dispatch) as [Henq Hdisp].
  split; [| split; [| split]].
  - exact (proj1 (Henq h (DrawMessage d) busy eq_refl eq_refl) eq_refl).
  - exact (proj2 (Henq h (DrawMessage d) Worker.initial eq_refl eq_refl)
             eq_refl).
  - exact (proj1 (proj2 (Hdisp h (DrawMessage d) [DrawMessage d] yielded
                          eq_refl eq_refl)) eq_refl).
  - exact (proj1 (proj2 (proj2 (Hdisp h (DrawMessage d) [] last
                                  eq_refl eq_refl)) eq_refl)).
Defined.

(** C2 as the spec has it fails: with a draw in flight, a draw request that
    arrives while another one is buffered is not dropped, and the buffer
    holds two draw requests. *)
Lemma second_buffered_draw_is_kept :
  let A := DrawMessage {| imageDimensions := Build_ImageDimensions 10000 10000;
                          bufferWidth := 100;
                          viewport := Build_Rectangle 0 0 1000 800 |} in
  let B := DrawMessage {| imageDimensions := Build_ImageDimensions 10000 10000;
                          bufferWidth := 100;
                          viewport := Build_Rectangle 40 0 1000 800 |} in
  let C := DrawMessage {| imageDimensions := Build_ImageDimensions 10000 10000;
                          bufferWidth := 100;
                          viewport := Build_Rectangle 80 0 1000 800 |} in
  let at_ms t := Worker.Build_Host t "r1" Worker.Context2d in
  let w := Worker.run [(at_ms 1000, Worker.MessageEvent A);
                       (at_ms 1001, Worker.MessageEvent B)] Worker.initial in
  Worker.parked w = Worker.InHeavy "r1" 1000 (fields A)
  /\ Worker.bufferedDraws w = [B]
  /\ Worker.bufferedDraws (Worker.onmessage (at_ms 1002) C w) = [B; C]
  /\ List.length (Worker.bufferedDraws (Worker.onmessage (at_ms 1002) C w)) = 2%nat.
Proof. cbv zeta. repeat split; vm_compute; auto. Qed.

(* ================================================================= *)
(** ** How a run leaves a macrotask *)

Section Executor.

Import Worker.

Implicit Types (h : Host) (w : Worker.t) (o : Outcome).

Lemma draw_rows_leaves h id args row painted w :
  run_leaves h id w (draw_rows h id args row painted w).
Proof.
  unfold draw_rows. destruct (row <? _); constructor.
Qed.

Lemma resume_rows_leaves h id args row painted w :
  run_leaves h id w (resume_rows h id args row painted w).
Proof.
  unfold resume_rows. destruct (isCurrentRunCancelled id w).
  - constructor.
  - apply draw_rows_leaves.
Qed.

Lemma draw_render_leaves h id args w :
  run_leaves h id w (draw_render h id args w).
Proof.
  unfold draw_render. destruct args as [a|]; [| constructor].
  destruct (canvas h); try constructor. apply draw_rows_leaves.
Qed.

Lemma resume_heavy_leaves h id startTime args w :
  run_leaves h id w (resume_heavy h id startTime args w).
Proof.
  unfold resume_heavy, simulateHeavyComputation.
  destruct (isCurrentRunCancelled id w); [apply draw_render_leaves |].
  destruct (_ <? _); [constructor | apply draw_render_leaves].
Qed.

Lemma resumed_leaves h w o :
  resumed h w = Some o -> exists id, run_leaves h id w o.
Proof.
  unfold resumed. destruct (parked w); intros H; inversion H; subst.
  - eexists. apply resume_heavy_leaves.
  - eexists. apply resume_rows_leaves.
Qed.

Lemma timer_resumed h w o :
  resumed h w = Some o -> timer h w = processQueue_iteration o.
Proof.
  unfold resumed, timer.
  destruct (parked w); intros H; inversion H; reflexivity.
Qed.

(** The message taken from the buffer is handled up to its first yield:
    it returns at once (a skipped draw, an unknown action) or it parks a
    new run in the heavy loop.  Only the slot and the console may change. *)
Lemma handleQueueMessage_first h message w :
  exists w',
    (handleQueueMessage h message w = Returned w'
     \/ handleQueueMessage h message w
        = Awaiting w' (InHeavy (random h) (now h) (fields message)))
    /\ queue w' = queue w
    /\ isProcessingMessages w' = isProcessingMessages w
    /\ queueProcessingStarted w' = queueProcessingStarted w
    /\ lastDrawResult w' = lastDrawResult w
    /\ posted w' = posted w.
Proof.
  unfold handleQueueMessage, handleDrawMessage.
  destruct (action message =? "draw")%string.
  - destruct (existsb isDraw _).
    + exists w. repeat split. now left.
    + rewrite draw_starts_heavy. eexists. split; [right; reflexivity |].
      repeat split.
  - eexists. split; [left; reflexivity |]. repeat split.
Qed.

Lemma processQueue_loop_consistent h w :
  isProcessingMessages w = true ->
  AsyncQueue.resolvers (queue w) = [] ->
  consistent (processQueue_loop h w).
Proof.
  intros Hp Hr. unfold processQueue_loop, AsyncQueue.items.
  destruct (queue w) as [buffer waiting] eqn:Eq. cbn in Hr. subst waiting.
  cbn. destruct buffer as [|message rest]; cbn.
  - unfold consistent; cbn. rewrite Eq. split; [tauto | reflexivity].
  - destruct (handleQueueMessage_first h message
                (set_queue (AsyncQueue.Build rest []) w))
      as (w' & [-> | ->] & Hq & Hp' & _); cbn in *;
      unfold consistent; cbn; rewrite Hq, Hp', Hp;
      (split; [split; discriminate | reflexivity]).
Qed.

Lemma processQueue_iteration_consistent h id w o :
  run_leaves h id w o ->
  isProcessingMessages w = true ->
  AsyncQueue.resolvers (queue w) = [] ->
  consistent (processQueue_iteration o).
Proof.
  intros Ho Hp Hr.
  destruct Ho; unfold consistent; cbn; rewrite ?Hp, ?Hr;
    (split; [split; (discriminate || reflexivity) | reflexivity]).
Qed.

Lemma onmessage_cancel_frame h data w :
  queue (onmessage_cancel h data w) = queue w
  /\ isProcessingMessages (onmessage_cancel h data w) = isProcessingMessages w
  /\ parked (onmessage_cancel h data w) = parked w
  /\ posted (onmessage_cancel h data w) = posted w
  /\ console (onmessage_cancel h data w) = console w.
Proof.
  unfold onmessage_cancel. destruct (_ || _); repeat split.
Qed.

Lemma onmessage_consistent h data w :
  consistent w -> consistent (onmessage h data w).
Proof.
  intros Hw. unfold onmessage.
  destruct (action data =? "")%string; [exact Hw |].
  destruct (onmessage_cancel_frame h data w) as (Hq & Hp & Hk & _).
  assert (Hc : consistent (onmessage_cancel h data w)).
  { destruct Hw as [Hi Hr]. unfold consistent. now rewrite Hq, Hp, Hk. }
  revert Hc. generalize (onmessage_cancel h data w). clear.
  intros w [Hi Hr]. unfold onmessage_queue.
  destruct (negb _); [| now split].
  unfold AsyncQueue.enqueue. rewrite Hr.
  destruct (isProcessingMessages w) eqn:Hp; cbn; rewrite Hp.
  - unfold consistent. cbn. rewrite Hp. split; [exact Hi | reflexivity].
  - apply processQueue_loop_consistent; reflexivity.
Qed.

Lemma timer_consistent h w : consistent w -> consistent (timer h w).
Proof.
  intros Hw. destruct (resumed h w) as [o|] eqn:Er.
  - rewrite (timer_resumed h w o Er).
    destruct (resumed_leaves h w o Er) as [id Ho].
    destruct Hw as [Hi Hr].
    apply (processQueue_iteration_consistent h id w o Ho); [| exact Hr].
    destruct (isProcessingMessages w); [reflexivity |].
    unfold resumed in Er. rewrite (proj1 Hi eq_refl) in Er. discriminate.
  - unfold timer. unfold resumed in Er.
    destruct (parked w) eqn:Ek; try discriminate; try exact Hw.
    destruct Hw as [Hi Hr].
    apply processQueue_loop_consistent; [| exact Hr].
    destruct (isProcessingMessages w); [reflexivity |].
    rewrite (proj1 Hi eq_refl) in Ek. discriminate.
Qed.

Lemma step_consistent h ev w : consistent w -> consistent (step h ev w).
Proof.
  destruct ev; [apply onmessage_consistent | apply timer_consistent].
Qed.

(** Whatever the event loop does, the drain loop is parked exactly while
    the processing flag is set, and nobody ever waits in [dequeue]. *)
Lemma reachable_consistent w : reachable w -> consistent w.
Proof.
  intros [trace ->].
  assert (H : consistent initial) by (split; [split |]; reflexivity).
  revert H. generalize initial. induction trace as [|[h ev] rest IH].
  - auto.
  - intros w H. cbn. apply IH. now apply step_consistent.
Qed.

End Executor.

(* ================================================================= *)
(** ** Completion, silent stops and faults *)

Section Completion.

Import Worker.

Implicit Types (h : Host) (w : Worker.t) (o : Outcome).

Lemma app_one_not_self (A : Type) (l : list A) (a : A) : l ++ [a] <> l.
Proof.
  intros H. apply (f_equal (@List.length A)) in H.
  rewrite length_app in H. cbn in H. lia.
Qed.

Lemma processQueue_loop_posted h w :
  posted (processQueue_loop h w) = posted w.
Proof.
  unfold processQueue_loop.
  destruct (AsyncQueue.items (queue w)); [reflexivity |].
  destruct (AsyncQueue.dequeue ResumeDrain (queue w)) as [q [message|]];
    [| reflexivity].
  destruct (handleQueueMessage_first h message (set_queue q w))
    as (w' & [-> | ->] & _ & _ & _ & _ & Hp); exact Hp.
Qed.

Lemma onmessage_posted h data w :
  posted (onmessage h data w) = posted w.
Proof.
  unfold onmessage. destruct (action data =? "")%string; [reflexivity |].
  destruct (onmessage_cancel_frame h data w) as (_ & _ & _ & Hp & _).
  rewrite <- Hp. generalize (onmessage_cancel h data w). clear. intros w.
  unfold onmessage_queue. destruct (negb _); [| reflexivity].
  destruct (AsyncQueue.enqueue data (queue w)) as [q woken].
  assert (Hw2 : posted (if isProcessingMessages (set_queue q w)
                        then set_queue q w
                        else processQueue h (set_queue q w)) = posted w).
  { destruct (isProcessingMessages (set_queue q w)); [reflexivity |].
    unfold processQueue. now rewrite processQueue_loop_posted. }
  revert Hw2. generalize (if isProcessingMessages (set_queue q w)
                          then set_queue q w
                          else processQueue h (set_queue q w)).
  intros w2 Hw2. destruct woken as [[[] item]|]; [| exact Hw2].
  destruct (handleQueueMessage_first h item w2)
    as (w' & [-> | ->] & _ & _ & _ & _ & Hp); cbn; congruence.
Qed.

(** A timer either posts nothing, or it resumes a run that reaches the end
    of [draw]. *)
Lemma timer_posts h w :
  posted (timer h w) = posted w
  \/ exists id args painted,
      timer h w = processQueue_iteration (draw_complete h id args painted w).
Proof.
  destruct (resumed h w) as [o|] eqn:Er.
  - rewrite (timer_resumed h w o Er).
    destruct (resumed_leaves h w o Er) as [id Ho].
    destruct Ho; try (left; reflexivity).
    right. eauto.
  - left. unfold timer. unfold resumed in Er.
    destruct (parked w); try discriminate; try reflexivity.
    apply processQueue_loop_posted.
Qed.

(** A message that is not a cancel starts a drain session on an idle
    worker. *)
Lemma onmessage_starts_session h data w :
  action data <> "" -> action data <> "cancel" ->
  isProcessingMessages w = false ->
  AsyncQueue.resolvers (queue w) = [] ->
  isProcessingMessages (onmessage h data w) = true
  /\ parked (onmessage h data w) <> Idle
  /\ queueProcessingStarted (onmessage h data w) = now h.
Proof.
  intros He Hc Hp Hr. unfold onmessage.
  apply String.eqb_neq in He. rewrite He.
  destruct (onmessage_cancel_frame h data w) as (Hq & Hp' & _).
  rewrite <- Hp' in Hp. rewrite <- Hq in Hr.
  revert Hp Hr. generalize (onmessage_cancel h data w). clear - Hc.
  intros w Hp Hr. unfold onmessage_queue.
  apply String.eqb_neq in Hc. rewrite Hc. cbn [negb].
  unfold AsyncQueue.enqueue. rewrite Hr. cbn. rewrite Hp.
  unfold processQueue, processQueue_loop, AsyncQueue.items,
    AsyncQueue.dequeue. cbn.
  destruct (AsyncQueue.queue (queue w) ++ [data]) as [|m rest] eqn:E.
  - destruct (AsyncQueue.queue (queue w)); discriminate.
  - match goal with
    | |- context [handleQueueMessage h m ?w0] =>
        destruct (handleQueueMessage_first h m w0)
          as (w' & [-> | ->] & _ & Hp1 & Hs1 & _)
    end; cbn in *; rewrite Hp1, Hs1; repeat split; discriminate.
Qed.

End Completion.

(** C4.  A step of the event loop in which a run completes, that is, which
    posts a result, leaves the current-run slot empty if the slot held the
    [runId] of that result and leaves it as it was otherwise; the result is
    stamped with the clock and recorded as the last result. *)
Theorem completed_run_compares_and_clears :
  forall (h : Worker.Host) (ev : Worker.Event) (w : Worker.t) (r : DrawResult),
    Worker.posted (Worker.step h ev w) = Worker.posted w ++ [r] ->
    Worker.currentRunId (Worker.step h ev w)
    = (if (Worker.currentRunId w =? runId r)%string
       then "" else Worker.currentRunId w)
    /\ Worker.lastDrawResult (Worker.step h ev w) = Some r
    /\ timestamp r = Worker.now h.
Proof.
  intros h ev w r Hpost. destruct ev as [data|]; cbn [Worker.step] in *.
  - rewrite onmessage_posted in Hpost.
    symmetry in Hpost. now apply app_one_not_self in Hpost.
  - destruct (timer_posts h w) as [Hsame | (id & args & painted & Ht)].
    + rewrite Hsame in Hpost.
      symmetry in Hpost. now apply app_one_not_self in Hpost.
    + rewrite Ht in *. cbn in Hpost. apply app_inj_tail in Hpost.
      destruct Hpost as [_ <-]. cbn. auto.
Qed.

Lemma completed_run_compares_and_clears_witness :
  let d := {| imageDimensions := Build_ImageDimensions 10000 10000;
              bufferWidth := 100;
              viewport := Build_Rectangle 0 0 1000 800 |} in
  let flat := {| imageDimensions := Build_ImageDimensions 10000 10000;
                 bufferWidth := 100;
                 viewport := Build_Rectangle 0 0 1000 0 |} in
  let h := Worker.Build_Host 1200 "r3" Worker.Context2d in
  let own := Worker.Build (AsyncQueue.Build [] []) true "r1" None 1000 [] []
               (Worker.InRows "r1" d 760 []) in
  let other := Worker.Build (AsyncQueue.Build [] []) true "r2" None 1000 [] []
                 (Worker.InHeavy "r1" 1000 (Some flat)) in
  Worker.currentRunId (Worker.step h Worker.TimerFired own) = ""
  /\ Worker.currentRunId (Worker.step h Worker.TimerFired other) = "r2".
Proof.
  intros d flat h own other. split.
  - exact (proj1 (completed_run_compares_and_clears h Worker.TimerFired own
             {| runId := "r1"; timestamp := 1200;
                result_viewport := viewport d;
                bitmap := [FillMarker (imageDimensions d)] |} eq_refl)).
  - exact (proj1 (completed_run_compares_and_clears h Worker.TimerFired other
             {| runId := "r1"; timestamp := 1200;
                result_viewport := viewport flat;
                bitmap := [FillMarker (imageDimensions flat)] |} eq_refl)).
Defined.

(** C7.  When the call resumed by a timer throws, the drain loop ends in the
    same macrotask: the error is logged, the processing flag and the start
    time are reset and nothing is parked.  The buffer is left as it was, so
    the message that was being handled is not put back; nothing is posted
    and the last result stays.  The next message that is not a cancel starts
    a new drain session. *)
Theorem fault_ends_drain_session :
  forall (h : Worker.Host) (w w0 : Worker.t) (error : string),
    Worker.resumed h w = Some (Worker.Threw w0 error) ->
    Worker.isProcessingMessages (Worker.timer h w) = false
    /\ Worker.queueProcessingStarted (Worker.timer h w) = 0
    /\ Worker.parked (Worker.timer h w) = Worker.Idle
    /\ Worker.console (Worker.timer h w) = Worker.console w ++ [Worker.Error error]
    /\ Worker.queue (Worker.timer h w) = Worker.queue w
    /\ Worker.posted (Worker.timer h w) = Worker.posted w
    /\ Worker.lastDrawResult (Worker.timer h w) = Worker.lastDrawResult w
    /\ Worker.currentRunId (Worker.timer h w) = Worker.currentRunId w
    /\ (forall (h' : Worker.Host) (data : IncomingMesssage),
           action data <> "" -> action data <> "cancel" ->
           AsyncQueue.resolvers (Worker.queue w) = [] ->
           Worker.isProcessingMessages
             (Worker.onmessage h' data (Worker.timer h w)) = true
           /\ Worker.parked (Worker.onmessage h' data (Worker.timer h w))
              <> Worker.Idle
           /\ Worker.queueProcessingStarted
                (Worker.onmessage h' data (Worker.timer h w)) = Worker.now h').
Proof.
  intros h w w0 error Er.
  rewrite (timer_resumed h w _ Er).
  destruct (resumed_leaves h w _ Er) as [id Ho].
  assert (w0 = w).
  { inversion Ho; subst; reflexivity. }
  subst w0. cbn. repeat split.
  all: apply onmessage_starts_session; auto.
Qed.

Lemma fault_ends_drain_session_witness :
  let h := Worker.Build_Host 1200 "r2" Worker.Context2d in
  let w := Worker.Build (AsyncQueue.Build [] []) true "r1" None 1000 [] []
             (Worker.InHeavy "r1" 1000 None) in
  Worker.resumed h w = Some (Worker.Threw w "TypeError")
  /\ Worker.isProcessingMessages (Worker.timer h w) = false
  /\ Worker.isProcessingMessages
       (Worker.onmessage h {| action := "draw"; fields := None |}
          (Worker.timer h w)) = true.
Proof.
  intros h w.
  pose proof (fault_ends_drain_session h w w "TypeError" eq_refl) as H.
  split; [reflexivity |]. split; [exact (proj1 H) |].
  refine (proj1 (proj2 (proj2 (proj2 (proj2 (proj2 (proj2 (proj2 (proj2 H)))))))
                   h {| action := "draw"; fields := None |} _ _ eq_refl)).
  - discriminate.
  - discriminate.
Defined.

(** C9.  When the heavy loop of a run is over and no drawing context is to
    be had, the timer step only parks the drain loop at the end of its
    iteration: nothing is posted, nothing is logged, no last result is
    recorded and the current-run slot is not touched.  A slot that held the
    run's id still holds it, also after the drain loop has found the buffer
    empty and has ended; the same run reaching the end of [draw] would have
    emptied the slot. *)
Theorem no_context_stops_silently :
  forall (h : Worker.Host) (w : Worker.t) (id : string) (startTime : Z)
         (args : DrawFields),
    Worker.parked w = Worker.InHeavy id startTime (Some args) ->
    Worker.canvas h = Worker.NoContext ->
    (Worker.isCurrentRunCancelled id w = true
     \/ Worker.durationMs <= Worker.now h - startTime) ->
    Worker.timer h w = Worker.park Worker.LoopYield w
    /\ Worker.posted (Worker.timer h w) = Worker.posted w
    /\ Worker.console (Worker.timer h w) = Worker.console w
    /\ Worker.lastDrawResult (Worker.timer h w) = Worker.lastDrawResult w
    /\ Worker.currentRunId (Worker.timer h w) = Worker.currentRunId w
    /\ (Worker.currentRunId w = id ->
        Worker.currentRunId (Worker.timer h w) = id
        /\ (AsyncQueue.items (Worker.queue w) = [] ->
            forall h',
              Worker.parked (Worker.timer h' (Worker.timer h w)) = Worker.Idle
              /\ Worker.currentRunId (Worker.timer h' (Worker.timer h w)) = id)
        /\ (forall painted,
               Worker.currentRunId
                 (Worker.outcome_worker
                    (Worker.draw_complete h id args painted w)) = "")).
Proof.
  intros h w id startTime args Hk Hc Hover.
  assert (Ht : Worker.timer h w = Worker.park Worker.LoopYield w).
  { unfold Worker.timer. rewrite Hk.
    unfold Worker.resume_heavy, Worker.simulateHeavyComputation,
      Worker.draw_render.
    rewrite Hc.
    destruct (Worker.isCurrentRunCancelled id w); [reflexivity |].
    destruct Hover as [Hover | Hover]; [discriminate |].
    apply Z.ltb_ge in Hover. rewrite Hover. reflexivity. }
  rewrite Ht. do 5 (split; [reflexivity |]).
  intros Hid. split; [exact Hid |]. split.
  - intros Hempty h'. unfold Worker.timer, Worker.processQueue_loop. cbn.
    rewrite Hempty. split; [reflexivity | exact Hid].
  - intros painted. cbn. rewrite Hid. now rewrite String.eqb_refl.
Qed.

Lemma no_context_stops_silently_witness :
  let d := {| imageDimensions := Build_ImageDimensions 10000 10000;
              bufferWidth := 100;
              viewport := Build_Rectangle 0 0 1000 800 |} in
  let h := Worker.Build_Host 1200 "r2" Worker.NoContext in
  let w := Worker.Build (AsyncQueue.Build [] []) true "r1" None 1000 [] []
             (Worker.InHeavy "r1" 1000 (Some d)) in
  Worker.timer h w = Worker.park Worker.LoopYield w
  /\ Worker.currentRunId (Worker.timer h w) = "r1"
  /\ Worker.parked (Worker.timer h (Worker.timer h w)) = Worker.Idle
  /\ Worker.currentRunId (Worker.timer h (Worker.timer h w)) = "r1".
Proof.
  intros d h w.
  assert (Hover : Worker.isCurrentRunCancelled "r1" w = true
                  \/ Worker.durationMs <= Worker.now h - 1000).
  { right. unfold Worker.durationMs. cbn. lia. }
  pose proof (no_context_stops_silently h w "r1" 1000 d eq_refl eq_refl Hover)
    as (Ht & _ & _ & _ & _ & Hid).
  destruct (Hid eq_refl) as (Hsame & Hidle & _).
  split; [exact Ht |]. split; [exact Hsame |].
  exact (Hidle eq_refl h).
Defined.

(* ================================================================= *)
(** ** A run of the whole worker *)

(** Draw A, a cancel and draw B arrive within two milliseconds; the timers
    that follow let run A see that it is cancelled and let run B finish.
    One result is posted, for the viewport of B, and the worker is idle
    again with an empty slot. *)
Example scenario_cancel_between_draws :
  let A := DrawMessage {| imageDimensions := Build_ImageDimensions 10000 10000;
                          bufferWidth := 100;
                          viewport := Build_Rectangle 0 0 1000 800 |} in
  let B := DrawMessage {| imageDimensions := Build_ImageDimensions 10000 10000;
                          bufferWidth := 100;
                          viewport := Build_Rectangle 40 0 1000 800 |} in
  let at_ms t id := Worker.Build_Host t id Worker.Context2d in
  let final :=
    Worker.run
      ([(at_ms 1000 "r1", Worker.MessageEvent A);
        (at_ms 1001 "r1", Worker.MessageEvent CancelMessage);
        (at_ms 1002 "r1", Worker.MessageEvent B)]
       ++ repeat (at_ms 1050 "r2", Worker.TimerFired) 3
       ++ repeat (at_ms 1200 "r2", Worker.TimerFired) 23)
      Worker.initial in
  map (fun r => (runId r, timestamp r, result_viewport r)) (Worker.posted final)
  = [("r2", 1200, Build_Rectangle 40 0 1000 800)]
  /\ Worker.parked final = Worker.Idle
  /\ Worker.currentRunId final = ""
  /\ Worker.isProcessingMessages final = false.
Proof. cbv zeta. repeat split; vm_compute; reflexivity. Qed.

(* ================================================================= *)
(** ** The task queue, over sequences of calls *)

Section QueueSequences.

Variables T R : Type.

Lemma enqueue_all_buffers (items buffer : list T) :
  enqueue_all items (AsyncQueue.Build buffer (@nil R))
  = (AsyncQueue.Build (buffer ++ items) [], []).
Proof.
  revert buffer. induction items as [|item rest IH]; intros buffer.
  - cbn. now rewrite app_nil_r.
  - cbn. rewrite IH. now rewrite <- app_assoc.
Qed.

Lemma dequeue_all_waits (resolves waiting : list R) :
  dequeue_all resolves (AsyncQueue.Build (@nil T) waiting)
  = (AsyncQueue.Build [] (waiting ++ resolves),
     repeat AsyncQueue.Pending (List.length resolves)).
Proof.
  revert waiting. induction resolves as [|resolve rest IH]; intros waiting.
  - cbn. now rewrite app_nil_r.
  - cbn. rewrite IH. now rewrite <- app_assoc.
Qed.

Lemma dequeue_all_buffered (resolves : list R) :
  forall buffer : list T,
    dequeue_all resolves (AsyncQueue.Build buffer (@nil R))
    = (AsyncQueue.Build (skipn (List.length resolves) buffer)
         (skipn (List.length buffer) resolves),
       map AsyncQueue.Resolved (firstn (List.length resolves) buffer)
       ++ repeat AsyncQueue.Pending (List.length resolves - List.length buffer)).
Proof.
  induction resolves as [|resolve rest IH]; intros buffer.
  - cbn. now rewrite skipn_nil.
  - destruct buffer as [|item buffer].
    + rewrite dequeue_all_waits. reflexivity.
    + cbn. rewrite IH. reflexivity.
Qed.

End QueueSequences.

(** X1.  Consumers that wait in [dequeue] on an empty buffer are served in
    the order in which they came: of the items enqueued one after the other,
    the i-th goes to the i-th waiting resolver; items beyond the number of
    waiting consumers are buffered in their order, and consumers beyond the
    number of items keep waiting in their order. *)
Theorem waiting_consumers_served_in_order :
  forall (T R : Type) (items : list T) (waiting : list R),
    enqueue_all items (AsyncQueue.Build (@nil T) waiting)
    = (AsyncQueue.Build (skipn (List.length waiting) items)
         (skipn (List.length items) waiting),
       combine waiting items).
Proof.
  intros T R items. induction items as [|item rest IH]; intros waiting.
  - cbn. now rewrite skipn_nil, combine_nil.
  - destruct waiting as [|first waiting].
    + rewrite enqueue_all_buffers. reflexivity.
    + cbn. rewrite IH. reflexivity.
Qed.

(** X2.  The queue is first in, first out: after the items have been
    enqueued on a new queue, a series of [dequeue] calls returns them in the
    order of their arrival, each at once; calls beyond the number of items
    get pending promises and wait, items beyond the number of calls stay
    buffered. *)
Theorem queue_is_first_in_first_out :
  forall (T R : Type) (items : list T) (resolves : list R),
    dequeue_all resolves (fst (enqueue_all items AsyncQueue.empty))
    = (AsyncQueue.Build (skipn (List.length resolves) items)
         (skipn (List.length items) resolves),
       map AsyncQueue.Resolved (firstn (List.length resolves) items)
       ++ repeat AsyncQueue.Pending (List.length resolves - List.length items)).
Proof.
  intros T R items resolves. unfold AsyncQueue.empty.
  rewrite enqueue_all_buffers. cbn [fst app].
  apply dequeue_all_buffered.
Qed.

(* ================================================================= *)
(** ** The shape of a step *)

Section Shapes.

Import Worker.

Implicit Types (h : Host) (w : Worker.t) (o : Outcome)
         (data : IncomingMesssage).

Lemma resumed_leaves_parked h w o :
  resumed h w = Some o ->
  exists id, parkedRun (parked w) = Some id /\ run_leaves h id w o.
Proof.
  unfold resumed. destruct (parked w); intros H; inversion H; subst; cbn.
  - eexists. split; [reflexivity | apply resume_heavy_leaves].
  - eexists. split; [reflexivity | apply resume_rows_leaves].
Qed.

(** What the head of the drain loop does, when nobody waits in [dequeue]. *)
Lemma processQueue_loop_shape h w :
  AsyncQueue.resolvers (queue w) = [] ->
  (AsyncQueue.items (queue w) = []
   /\ processQueue_loop h w = processQueue_finally w)
  \/ exists message rest,
      AsyncQueue.items (queue w) = message :: rest
      /\ (processQueue_loop h w
          = park LoopYield
              (log (Warn (action message))
                 (set_queue (AsyncQueue.Build rest []) w))
          \/ processQueue_loop h w
             = park LoopYield (set_queue (AsyncQueue.Build rest []) w)
          \/ processQueue_loop h w
             = park (InHeavy (random h) (now h) (fields message))
                 (set_currentRunId (random h)
                    (set_queue (AsyncQueue.Build rest []) w))).
Proof.
  intros Hr. unfold processQueue_loop, AsyncQueue.items, AsyncQueue.dequeue.
  rewrite Hr. destruct (AsyncQueue.queue (queue w)) as [|message rest].
  - left. split; reflexivity.
  - right. exists message, rest. split; [reflexivity |].
    unfold handleQueueMessage, handleDrawMessage.
    destruct (action message =? "draw")%string; [| left; reflexivity].
    cbn. destruct (existsb isDraw rest); [right; left; reflexivity |].
    right; right. rewrite draw_starts_heavy. reflexivity.
Qed.

(** What [self.onmessage] does, when nobody waits in [dequeue]. *)
Lemma onmessage_shape h data w :
  AsyncQueue.resolvers (queue w) = [] ->
  onmessage h data w = w
  \/ onmessage h data w = cancelCurrentDraw w
  \/ (queueable data
      /\ exists w1,
          (w1 = w \/ w1 = cancelCurrentDraw w)
          /\ ((isProcessingMessages w = true
               /\ onmessage h data w
                  = set_queue
                      (AsyncQueue.Build
                         (AsyncQueue.queue (queue w) ++ [data]) []) w1)
              \/ (isProcessingMessages w = false
                  /\ onmessage h data w
                     = processQueue_loop h
                         (set_queueProcessingStarted (now h)
                            (set_isProcessingMessages true
                               (set_queue
                                  (AsyncQueue.Build
                                     (AsyncQueue.queue (queue w) ++ [data]) [])
                                  w1)))))).
Proof.
  intros Hr. unfold onmessage.
  destruct (action data =? "")%string eqn:He; [now left |].
  apply String.eqb_neq in He.
  destruct (action data =? "cancel")%string eqn:Hc.
  - right; left. unfold onmessage_cancel, onmessage_queue. rewrite Hc.
    rewrite orb_true_r. reflexivity.
  - right; right. apply String.eqb_neq in Hc. split; [now split |].
    exists (onmessage_cancel h data w). split.
    + unfold onmessage_cancel. destruct (_ || _); [now right | now left].
    + destruct (onmessage_cancel_frame h data w) as (Hq & Hp & _).
      destruct (isProcessingMessages w) eqn:Hproc; [left | right];
        (split; [reflexivity |]).
      * rewrite onmessage_queue_processing by congruence.
        now rewrite Hq.
      * unfold onmessage_queue. apply String.eqb_neq in Hc. rewrite Hc.
        cbn [negb]. unfold AsyncQueue.enqueue. rewrite Hq, Hr. cbn.
        rewrite Hp. reflexivity.
Qed.

(** What the firing of a timer does. *)
Lemma timer_shape h w :
  timer h w = w
  \/ (parked w = LoopYield /\ timer h w = processQueue_loop h w)
  \/ exists id o,
      parkedRun (parked w) = Some id
      /\ run_leaves h id w o
      /\ timer h w = processQueue_iteration o.
Proof.
  destruct (resumed h w) as [o|] eqn:Er.
  - right; right. destruct (resumed_leaves_parked h w o Er) as (id & Hk & Ho).
    exists id, o. repeat split; auto. now apply timer_resumed.
  - unfold timer. unfold resumed in Er.
    destruct (parked w); try discriminate; auto.
Qed.

End Shapes.

(* ================================================================= *)
(** ** What holds between any two macrotasks *)

Section WellFormed.

Import Worker.

Implicit Types (h : Host) (w : Worker.t) (o : Outcome)
         (data : IncomingMesssage).

Lemma hd_error_rev_app (A : Type) (l : list A) (a : A) :
  hd_error (rev (l ++ [a])) = Some a.
Proof. rewrite rev_app_distr. reflexivity. Qed.

Lemma parked_flag w id :
  consistent w -> parkedRun (parked w) = Some id ->
  isProcessingMessages w = true.
Proof.
  intros [Hi _] Hk. destruct (isProcessingMessages w); [reflexivity |].
  rewrite (proj1 Hi eq_refl) in Hk. discriminate.
Qed.

Lemma processQueue_loop_well_formed h w :
  isProcessingMessages w = true ->
  AsyncQueue.resolvers (queue w) = [] ->
  Forall queueable (AsyncQueue.items (queue w)) ->
  lastDrawResult w = hd_error (rev (posted w)) ->
  well_formed (processQueue_loop h w).
Proof.
  intros Hp Hr Hq Hl.
  destruct (processQueue_loop_shape h w Hr)
    as [[He ->] | (m & rest & He & [-> | [-> | ->]])];
    unfold well_formed, consistent; cbn; rewrite ?Hp, ?Hr;
    rewrite He in Hq.
  - rewrite He. repeat split; auto.
  - apply Forall_inv_tail in Hq. repeat split; auto; discriminate.
  - apply Forall_inv_tail in Hq. repeat split; auto; discriminate.
  - apply Forall_inv_tail in Hq. repeat split; auto; discriminate.
Qed.

Lemma onmessage_well_formed h data w :
  well_formed w -> well_formed (onmessage h data w).
Proof.
  intros Hw. pose proof Hw as (Hc & Hq & Hs & Hl & Hz).
  pose proof Hc as [Hi Hr].
  destruct (onmessage_shape h data w Hr)
    as [-> | [-> | (Hqa & w1 & Hw1 & [[Hp ->] | [Hp ->]])]].
  - exact Hw.
  - unfold well_formed, consistent; cbn. repeat split; auto; try apply Hi.
    destruct (parkedRun (parked w)); auto.
  - assert (Hq' : Forall queueable (AsyncQueue.queue (queue w) ++ [data])).
    { apply Forall_app. split; [exact Hq | now constructor]. }
    destruct Hw1 as [-> | ->]; unfold well_formed, consistent; cbn;
      repeat split; auto; try apply Hi.
    destruct (parkedRun (parked w)); auto.
  - apply processQueue_loop_well_formed.
    + reflexivity.
    + reflexivity.
    + cbn. apply Forall_app. split; [exact Hq | now constructor].
    + destruct Hw1 as [-> | ->]; exact Hl.
Qed.

Lemma timer_well_formed h w : well_formed w -> well_formed (timer h w).
Proof.
  intros Hw. pose proof Hw as (Hc & Hq & Hs & Hl & Hz).
  pose proof Hc as [Hi Hr].
  destruct (timer_shape h w) as [-> | [[Hk ->] | (id & o & Hk & Ho & ->)]].
  - exact Hw.
  - apply processQueue_loop_well_formed; auto.
    destruct (isProcessingMessages w); [reflexivity |].
    rewrite (proj1 Hi eq_refl) in Hk. discriminate.
  - pose proof (parked_flag w id Hc Hk) as Hp. rewrite Hk in Hs.
    destruct Ho; unfold well_formed, consistent; cbn; rewrite ?Hp, ?Hr;
      repeat split; auto; try discriminate.
    symmetry. apply hd_error_rev_app.
Qed.

Lemma step_well_formed h ev w : well_formed w -> well_formed (step h ev w).
Proof.
  destruct ev; [apply onmessage_well_formed | apply timer_well_formed].
Qed.

Lemma initial_well_formed : well_formed initial.
Proof.
  unfold well_formed, consistent; cbn. repeat split; auto.
Qed.

Lemma run_well_formed trace :
  forall w, well_formed w -> well_formed (run trace w).
Proof.
  induction trace as [|[h ev] rest IH]; intros w Hw; [exact Hw |].
  cbn. apply IH. now apply step_well_formed.
Qed.

Lemma reachable_well_formed w : reachable w -> well_formed w.
Proof.
  intros [trace ->]. apply run_well_formed, initial_well_formed.
Qed.

End WellFormed.

(** X3.  From a new worker, whatever messages arrive and whenever the timers
    fire: the drain loop is parked somewhere exactly while
    [isProcessingMessages] is set, so that no second drain loop is ever
    started beside a running one; nobody ever waits in [dequeue]; and
    [queueProcessingStarted] is 0 whenever no drain loop runs. *)
Theorem drain_loop_is_single_flight :
  forall trace : list (Worker.Host * Worker.Event),
    let w := Worker.run trace Worker.initial in
    (Worker.isProcessingMessages w = false <-> Worker.parked w = Worker.Idle)
    /\ AsyncQueue.resolvers (Worker.queue w) = []
    /\ AsyncQueue.exclusive (Worker.queue w)
    /\ (Worker.parked w = Worker.Idle -> Worker.queueProcessingStarted w = 0).
Proof.
  intros trace w.
  destruct (run_well_formed trace Worker.initial initial_well_formed)
    as ([Hi Hr] & _ & _ & _ & Hz).
  fold w in Hi, Hr, Hz. repeat split; try apply Hi; auto.
  - now right.
  - intros Hk. apply Hz. now apply Hi.
Qed.

Lemma drain_loop_is_single_flight_witness :
  let d := {| imageDimensions := Build_ImageDimensions 10000 10000;
              bufferWidth := 100;
              viewport := Build_Rectangle 0 0 1000 800 |} in
  let h := Worker.Build_Host 1000 "r1" Worker.NoContext in
  Worker.queueProcessingStarted
    (Worker.run [(h, Worker.MessageEvent (DrawMessage d));
                 (Worker.Build_Host 1200 "r1" Worker.NoContext,
                  Worker.TimerFired);
                 (Worker.Build_Host 1201 "r1" Worker.NoContext,
                  Worker.TimerFired)] Worker.initial) = 0.
Proof.
  intros d h.
  exact (proj2 (proj2 (proj2 (drain_loop_is_single_flight
           [(h, Worker.MessageEvent (DrawMessage d));
            (Worker.Build_Host 1200 "r1" Worker.NoContext, Worker.TimerFired);
            (Worker.Build_Host 1201 "r1" Worker.NoContext, Worker.TimerFired)])))
           eq_refl).
Defined.

(** X4.  The buffer of the worker never holds a cancel, nor a message with
    an empty action: whatever has arrived, every buffered message is one
    that [self.onmessage] queues. *)
Theorem buffer_never_holds_cancel :
  forall trace : list (Worker.Host * Worker.Event),
    Forall (fun m => action m <> "" /\ action m <> "cancel")
           (AsyncQueue.items (Worker.queue (Worker.run trace Worker.initial))).
Proof.
  intros trace.
  destruct (run_well_formed trace Worker.initial initial_well_formed)
    as (_ & Hq & _).
  exact Hq.
Qed.

(** X5.  Runs never overlap: while the continuation of a run is parked, the
    current-run slot is empty or holds the id of that very run, whatever
    messages have arrived.  No other run is installed before the parked one
    has left [draw]. *)
Theorem slot_holds_parked_run_or_nothing :
  forall (trace : list (Worker.Host * Worker.Event)) (id : string),
    parkedRun (Worker.parked (Worker.run trace Worker.initial)) = Some id ->
    Worker.currentRunId (Worker.run trace Worker.initial) = id
    \/ Worker.currentRunId (Worker.run trace Worker.initial) = "".
Proof.
  intros trace id Hk.
  destruct (run_well_formed trace Worker.initial initial_well_formed)
    as (_ & _ & Hs & _).
  rewrite Hk in Hs. exact Hs.
Qed.

Lemma slot_holds_parked_run_or_nothing_witness :
  let d := {| imageDimensions := Build_ImageDimensions 10000 10000;
              bufferWidth := 100;
              viewport := Build_Rectangle 0 0 1000 800 |} in
  let trace := [(Worker.Build_Host 1000 "r1" Worker.Context2d,
                 Worker.MessageEvent (DrawMessage d));
                (Worker.Build_Host 1001 "r2" Worker.Context2d,
                 Worker.MessageEvent (DrawMessage d))] in
  parkedRun (Worker.parked (Worker.run trace Worker.initial)) = Some "r1"
  /\ (Worker.currentRunId (Worker.run trace Worker.initial) = "r1"
      \/ Worker.currentRunId (Worker.run trace Worker.initial) = "").
Proof.
  intros d trace. split; [reflexivity |].
  exact (slot_holds_parked_run_or_nothing trace "r1" eq_refl).
Defined.

(** X6.  [lastDrawResult] is always the result that was posted last, and it
    is null exactly as long as nothing has been posted. *)
Theorem last_result_is_last_posted :
  forall trace : list (Worker.Host * Worker.Event),
    Worker.lastDrawResult (Worker.run trace Worker.initial)
    = hd_error (rev (Worker.posted (Worker.run trace Worker.initial))).
Proof.
  intros trace.
  destruct (run_well_formed trace Worker.initial initial_well_formed)
    as (_ & _ & _ & Hl & _).
  exact Hl.
Qed.

(* ================================================================= *)
(** ** What is posted, and when *)

Section Posting.

Import Worker.

Implicit Types (h : Host) (w : Worker.t) (o : Outcome)
         (data : IncomingMesssage).


(** A step posts nothing or one result, stamped with the clock. *)
Lemma step_posts h ev w :
  posted (step h ev w) = posted w
  \/ exists r, posted (step h ev w) = posted w ++ [r]
               /\ timestamp r = now h.
Proof.
  destruct ev as [data|]; cbn [step].
  - left. apply onmessage_posted.
  - destruct (timer_posts h w) as [Hs | (id & args & painted & ->)];
      [now left |].
    right. eexists. split; reflexivity.
Qed.

Lemma messages_post_nothing (arrivals : list (Host * IncomingMesssage)) :
  forall w, posted (run (messages arrivals) w) = posted w.
Proof.
  induction arrivals as [|[h data] rest IH]; intros w; [reflexivity |].
  cbn. rewrite IH. apply onmessage_posted.
Qed.

Lemma run_posts_more (trace : list (Host * Event)) :
  forall w, exists more, posted (run trace w) = posted w ++ more.
Proof.
  induction trace as [|[h ev] rest IH]; intros w.
  - exists []. cbn. now rewrite app_nil_r.
  - cbn. destruct (IH (step h ev w)) as [more Hm]. rewrite Hm.
    destruct (step_posts h ev w) as [-> | (r & -> & _)].
    + now exists more.
    + exists (r :: more). now rewrite <- app_assoc.
Qed.

End Posting.

(** X7.  What the worker has posted is never taken back: along any run of
    the event loop the list of posted results only grows at its end.  No
    result is ever posted in the macrotask of a message; results are posted
    only when a timer fires. *)
Theorem posted_results_only_grow :
  forall (trace : list (Worker.Host * Worker.Event))
         (arrivals : list (Worker.Host * IncomingMesssage)) (w : Worker.t),
    (exists more,
        Worker.posted (Worker.run trace w) = Worker.posted w ++ more)
    /\ Worker.posted (Worker.run (messages arrivals) w) = Worker.posted w.
Proof.
  intros trace arrivals w. split.
  - apply run_posts_more.
  - apply messages_post_nothing.
Qed.

(** X8.  A message with an unknown action that reaches an idle worker with
    an empty buffer is queued, taken from the queue in the same macrotask,
    answered with a warning on the console and dropped; when the next timer
    has fired the worker is as it was, but for the warning. *)
Theorem unknown_action_only_warns :
  forall (h h' : Worker.Host) (data : IncomingMesssage) (w : Worker.t),
    well_formed w ->
    Worker.isProcessingMessages w = false ->
    AsyncQueue.items (Worker.queue w) = [] ->
    action data <> "" -> action data <> "cancel" -> action data <> "draw" ->
    Worker.run [(h, Worker.MessageEvent data); (h', Worker.TimerFired)] w
    = Worker.log (Worker.Warn (action data)) w.
Proof.
  intros h h' data w ([Hi Hr] & _ & _ & _ & Hz) Hp Hq He Hc Hd.
  specialize (Hz Hp). apply Hi in Hp as Hk.
  destruct w as [[buffer waiting] p slot last started po co k].
  cbn in *. subst.
  apply String.eqb_neq in He, Hc, Hd.
  unfold Worker.onmessage, Worker.onmessage_cancel,
    Worker.cancelByNewDrawRequest, Worker.onmessage_queue.
  rewrite He, Hc, Hd. cbn.
  unfold Worker.processQueue, Worker.processQueue_loop. cbn.
  unfold Worker.handleQueueMessage. rewrite Hd. cbn.
  unfold Worker.timer, Worker.processQueue_loop. cbn. reflexivity.
Qed.

Lemma unknown_action_only_warns_witness :
  let h := Worker.Build_Host 1000 "r1" Worker.Context2d in
  Worker.run [(h, Worker.MessageEvent {| action := "zoom"; fields := None |});
              (h, Worker.TimerFired)] Worker.initial
  = Worker.log (Worker.Warn "zoom") Worker.initial.
Proof.
  intros h.
  apply (unknown_action_only_warns h h {| action := "zoom"; fields := None |}
           Worker.initial initial_well_formed eq_refl eq_refl);
    discriminate.
Defined.

(* ================================================================= *)
(** ** Cancelled runs and runs that finish *)

Section Runs.

Import Worker.

Implicit Types (h : Host) (w : Worker.t) (o : Outcome)
         (data : IncomingMesssage).

Lemma isCurrentRunCancelled_true id w :
  currentRunId w <> id -> isCurrentRunCancelled id w = true.
Proof.
  intros H. unfold isCurrentRunCancelled.
  apply String.eqb_neq in H. now rewrite H.
Qed.


Lemma cancelledRun_intro id w :
  parkedRun (parked w) = Some id ->
  currentRunId w <> id ->
  id <> "" ->
  consistent w ->
  match parked w with
  | InHeavy _ _ (Some args) => hasRows (viewport args)
  | _ => True
  end ->
  cancelledRun id w.
Proof. intros. unfold cancelledRun. auto 10. Qed.


End Runs.



(** X10.  The edge of X9: [draw] looks for a cancellation only inside its
    two loops.  A run that was cancelled in its heavy loop and whose
    viewport has no row to paint goes straight to the end of [draw] once a
    context is there: its result is posted and recorded as the last result
    although the run was cancelled, and the slot is left as it was. *)
Theorem cancelled_run_without_rows_still_posts :
  forall (h : Worker.Host) (w : Worker.t) (id : string) (startTime : Z)
         (args : DrawFields),
    Worker.parked w = Worker.InHeavy id startTime (Some args) ->
    Worker.currentRunId w <> id ->
    Worker.canvas h = Worker.Context2d ->
    ~ hasRows (viewport args) ->
    exists r,
      Worker.posted (Worker.timer h w) = Worker.posted w ++ [r]
      /\ runId r = id
      /\ result_viewport r = viewport args
      /\ bitmap r = [FillMarker (imageDimensions args)]
      /\ Worker.lastDrawResult (Worker.timer h w) = Some r
      /\ Worker.currentRunId (Worker.timer h w) = Worker.currentRunId w.
Proof.
  intros h w id startTime args Hk Hslot Hc Hrows.
  unfold Worker.timer. rewrite Hk. unfold Worker.resume_heavy.
  rewrite (isCurrentRunCancelled_true id w Hslot).
  unfold Worker.draw_render. rewrite Hc. unfold Worker.draw_rows.
  unfold hasRows in Hrows. apply Z.nlt_ge, Z.ltb_ge in Hrows. rewrite Hrows.
  cbn. apply String.eqb_neq in Hslot. rewrite Hslot.
  eexists. repeat split.
Qed.

Lemma cancelled_run_without_rows_still_posts_witness :
  let d := {| imageDimensions := Build_ImageDimensions 10000 10000;
              bufferWidth := 100;
              viewport := Build_Rectangle 0 (-10) 1000 5 |} in
  let h := Worker.Build_Host 1001 "r2" Worker.Context2d in
  let w := Worker.Build (AsyncQueue.Build [] []) true "" None 1000 [] []
             (Worker.InHeavy "r1" 1000 (Some d)) in
  exists r,
    Worker.posted (Worker.timer h w) = Worker.posted w ++ [r]
    /\ runId r = "r1"
    /\ result_viewport r = viewport d
    /\ bitmap r = [FillMarker (imageDimensions d)]
    /\ Worker.lastDrawResult (Worker.timer h w) = Some r
    /\ Worker.currentRunId (Worker.timer h w) = Worker.currentRunId w.
Proof.
  intros d h w.
  apply (cancelled_run_without_rows_still_posts h w "r1" 1000 d eq_refl).
  - discriminate.
  - reflexivity.
  - unfold hasRows. vm_compute. discriminate.
Defined.

Section Finishing.

Import Worker.

Implicit Types (h : Host) (w : Worker.t) (o : Outcome)
         (data : IncomingMesssage).

Lemma last_nonempty (A : Type) (l : list A) :
  forall a d d', last (a :: l) d = last (a :: l) d'.
Proof.
  induction l as [|b l IH]; intros a d d'; [reflexivity |].
  change (last (b :: l) d = last (b :: l) d'). apply IH.
Qed.



End Finishing.



(* ================================================================= *)
(** ** The tiles of a row *)

Section Tiles.

Import Worker.

Lemma tile_row_covers (fuel : nat) :
  forall (tx limit ty c : Z),
    limit - tx <= Z.of_nat fuel ->
    tx <= c < limit ->
    exists t,
      In (FillTile t ty (isDark t ty)) (tile_row fuel tx limit ty)
      /\ t <= c < t + tileSize.
Proof.
  induction fuel as [|fuel IH]; intros tx limit ty c Hfuel Hc.
  - cbn in Hfuel. lia.
  - cbn [tile_row].
    replace (tx <? limit) with true by (symmetry; apply Z.ltb_lt; lia).
    destruct (Z.lt_ge_cases c (tx + tileSize)) as [Hin | Hout].
    + exists tx. split; [now left | lia].
    + destruct (IH (tx + tileSize) limit ty c) as (t & Ht & Hr).
      * unfold tileSize. lia.
      * lia.
      * exists t. split; [now right | exact Hr].
Qed.


End Tiles.

(** X12.  A row of tiles covers the viewport from edge to edge when the
    viewport does not start left of the origin and its right edge is a
    number that JavaScript holds exactly (at most 2^53): every pixel column
    of the viewport lies in a tile that the inner loop of [draw] has
    painted. *)
Theorem row_covers_viewport :
  forall (v : Rectangle) (ty c : Z),
    0 <= x v ->
    x v + width v <= MAX_EXACT ->
    x v <= c < x v + width v ->
    exists t dark,
      In (FillTile t ty dark) (Worker.paint_row v ty)
      /\ t <= c < t + Worker.tileSize.
Proof.
  intros v ty c Hx _ Hc. unfold Worker.paint_row.
  destruct (tile_row_covers (Z.to_nat (x v + width v - Worker.startX v))
              (Worker.startX v) (x v + width v) ty c) as (t & Hin & Hr).
  - lia.
  - pose proof (proj2 (startX_at_or_before v) (or_introl Hx)). lia.
  - exists t, (Worker.isDark t ty). split; assumption.
Qed.

Lemma row_covers_viewport_witness :
  let v := Build_Rectangle 4510 4610 1000 800 in
  exists t dark,
    In (FillTile t 4600 dark) (Worker.paint_row v 4600)
    /\ t <= 4510 < t + Worker.tileSize.
Proof.
  intros v.
  apply (row_covers_viewport v 4600 4510).
  - cbn. lia.
  - unfold MAX_EXACT. cbn. lia.
  - cbn. lia.
Defined.




(* ================================================================= *)
(** ** The worker and the gate together *)

Section Ordering.

Lemma ascending_from_app (results : list DrawResult) :
  forall (lo : Z) (r : DrawResult),
    ascending_from lo (results ++ [r])
    <-> ascending_from lo results
        /\ last_timestamp lo results <= timestamp r.
Proof.
  unfold last_timestamp.
  induction results as [|r0 rest IH]; intros lo r; cbn.
  - tauto.
  - rewrite IH. tauto.
Qed.

Lemma last_timestamp_app (results : list DrawResult) (lo : Z) (r : DrawResult) :
  last_timestamp lo (results ++ [r]) = timestamp r.
Proof.
  unfold last_timestamp. rewrite fold_left_app. reflexivity.
Qed.

Lemma ascending_from_weaken (results : list DrawResult) (lo lo' : Z) :
  lo' <= lo -> ascending_from lo results -> ascending_from lo' results.
Proof.
  destruct results as [|r rest]; cbn; [auto |]. intros H [H1 H2].
  split; [lia | exact H2].
Qed.

(** Under a clock that does not run backwards the results are posted with
    timestamps that do not decrease, none of them ahead of the clock. *)
Lemma run_posts_ascending (trace : list (Worker.Host * Worker.Event)) :
  forall (lo t0 : Z) (w : Worker.t),
    ascending_from lo (Worker.posted w) ->
    last_timestamp lo (Worker.posted w) <= t0 ->
    clock_monotone t0 trace ->
    ascending_from lo (Worker.posted (Worker.run trace w)).
Proof.
  induction trace as [|[h ev] rest IH]; intros lo t0 w Hasc Hlast Hclock;
    [exact Hasc |].
  destruct Hclock as [Hnow Hrest]. cbn [Worker.run].
  destruct (step_posts h ev w) as [E | (r & E & Ht)].
  - apply (IH lo (Worker.now h)); rewrite ?E; auto. lia.
  - apply (IH lo (Worker.now h)); rewrite ?E; auto.
    + apply ascending_from_app. split; [exact Hasc | lia].
    + rewrite last_timestamp_app. lia.
Qed.

(** Results that arrive with timestamps that do not decrease are all
    admitted by the gate. *)
Lemma gate_takes_ascending (results : list DrawResult) :
  forall (lo : Z) (v : Viewer.t),
    match Viewer.drawResultRef v with
    | Some c => timestamp c <= lo
    | None => True
    end ->
    ascending_from lo results ->
    Viewer.drawResultRef (Viewer.deliver results v)
    = match hd_error (rev results) with
      | Some r => Some r
      | None => Viewer.drawResultRef v
      end.
Proof.
  induction results as [|r rest IH] using rev_ind; intros lo v Hv Hasc;
    [reflexivity |].
  apply ascending_from_app in Hasc as [Hasc Hlast].
  unfold Viewer.deliver. rewrite fold_left_app. cbn [fold_left].
  fold (Viewer.deliver rest v). rewrite hd_error_rev_app.
  pose proof (IH lo v Hv Hasc) as Hrest.
  assert (Hle : match Viewer.drawResultRef (Viewer.deliver rest v) with
                | Some c => timestamp c <= timestamp r
                | None => True
                end).
  { rewrite Hrest. unfold last_timestamp in Hlast.
    destruct rest as [|r0 rest0] using rev_ind.
    - cbn in *. destruct (Viewer.drawResultRef v); [lia | exact I].
    - rewrite hd_error_rev_app. rewrite fold_left_app in Hlast.
      cbn in Hlast. exact Hlast. }
  destruct (Viewer.deliver rest v) as [[c|] p n sh lg].
  - rewrite gate_step_some. cbn in Hle.
    destruct (Z.gtb_spec (timestamp c) (timestamp r)); [lia | reflexivity].
  - apply gate_step_none.
Qed.

End Ordering.

(** X15.  Results that reach the gate with timestamps that do not decrease
    are all admitted, equal timestamps included: after the deliveries the
    slot holds the result that was delivered last. *)
Theorem gate_keeps_last_of_ascending :
  forall (lo : Z) (results : list DrawResult) (r : DrawResult),
    ascending_from lo (results ++ [r]) ->
    Viewer.drawResultRef (Viewer.deliver (results ++ [r]) Viewer.initial)
    = Some r.
Proof.
  intros lo results r Hasc.
  rewrite (gate_takes_ascending (results ++ [r]) lo Viewer.initial I Hasc).
  now rewrite hd_error_rev_app.
Qed.

Lemma gate_keeps_last_of_ascending_witness :
  let a := {| runId := "a"; timestamp := 5;
              result_viewport := Build_Rectangle 0 0 800 600; bitmap := [] |} in
  let b := {| runId := "b"; timestamp := 5;
              result_viewport := Build_Rectangle 40 0 800 600; bitmap := [] |} in
  let c := {| runId := "c"; timestamp := 9;
              result_viewport := Build_Rectangle 80 0 800 600; bitmap := [] |} in
  Viewer.drawResultRef (Viewer.deliver ([a; b] ++ [c]) Viewer.initial) = Some c.
Proof.
  intros a b c.
  apply (gate_keeps_last_of_ascending 0 [a; b] c).
  cbn. lia.
Defined.

(** X16.  When the clock does not run backwards, the worker posts its
    results in the order of their timestamps: along any run of the event
    loop from a new worker the timestamps of the posted results do not
    decrease. *)
Theorem worker_posts_in_timestamp_order :
  forall (t0 : Z) (trace : list (Worker.Host * Worker.Event)),
    clock_monotone t0 trace ->
    ascending_from t0 (Worker.posted (Worker.run trace Worker.initial)).
Proof.
  intros t0 trace Hclock.
  apply (run_posts_ascending trace t0 t0 Worker.initial); cbn; auto. lia.
Qed.

(** X17.  Worker and gate agree: when the clock does not run backwards and
    the results are delivered in the order in which they were posted, the
    gate drops none of them and the result that the viewer holds is the
    [lastDrawResult] of the worker. *)
Theorem viewer_holds_last_result_of_worker :
  forall (t0 : Z) (trace : list (Worker.Host * Worker.Event)),
    clock_monotone t0 trace ->
    Viewer.drawResultRef
      (Viewer.deliver (Worker.posted (Worker.run trace Worker.initial))
         Viewer.initial)
    = Worker.lastDrawResult (Worker.run trace Worker.initial).
Proof.
  intros t0 trace Hclock.
  pose proof (run_posts_ascending trace t0 t0 Worker.initial I
                (Z.le_refl t0) Hclock) as Hasc.
  rewrite (gate_takes_ascending _ t0 Viewer.initial I Hasc).
  destruct (run_well_formed trace Worker.initial initial_well_formed)
    as (_ & _ & _ & Hl & _).
  rewrite Hl. destruct (hd_error _); reflexivity.
Qed.

Lemma worker_posts_in_timestamp_order_witness :
  let d := {| imageDimensions := Build_ImageDimensions 10000 10000;
              bufferWidth := 100;
              viewport := Build_Rectangle 0 0 1000 80 |} in
  let at_ms t := Worker.Build_Host t "r1" Worker.Context2d in
  let trace := (at_ms 1000, Worker.MessageEvent (DrawMessage d))
               :: timers [at_ms 1100; at_ms 1101; at_ms 1102] in
  clock_monotone 0 trace
  /\ ascending_from 0 (Worker.posted (Worker.run trace Worker.initial)).
Proof.
  intros d at_ms trace.
  assert (H : clock_monotone 0 trace) by (cbn; lia).
  split; [exact H |].
  exact (worker_posts_in_timestamp_order 0 trace H).
Defined.

Lemma viewer_holds_last_result_of_worker_witness :
  let d := {| imageDimensions := Build_ImageDimensions 10000 10000;
              bufferWidth := 100;
              viewport := Build_Rectangle 0 0 1000 80 |} in
  let at_ms t := Worker.Build_Host t "r1" Worker.Context2d in
  let trace := (at_ms 1000, Worker.MessageEvent (DrawMessage d))
               :: timers [at_ms 1100; at_ms 1101; at_ms 1102] in
  clock_monotone 0 trace
  /\ Viewer.drawResultRef
       (Viewer.deliver (Worker.posted (Worker.run trace Worker.initial))
          Viewer.initial)
     = Worker.lastDrawResult (Worker.run trace Worker.initial).
Proof.
  intros d at_ms trace.
  assert (H : clock_monotone 0 trace) by (cbn; lia).
  split; [exact H |].
  exact (viewer_holds_last_result_of_worker 0 trace H).
Defined.

(* ================================================================= *)
(** ** The redraw of the viewer *)

Section Redraw.

Lemma onmessage_frames (r : DrawResult) (v : Viewer.t) :
  (Viewer.isAnimationPendingRef v = true ->
   Viewer.requestedFrames (Viewer.onmessage r v) = Viewer.requestedFrames v
   /\ Viewer.isAnimationPendingRef (Viewer.onmessage r v) = true)
  /\ (Viewer.isAnimationPendingRef v = false ->
      (Viewer.requestedFrames (Viewer.onmessage r v) = Viewer.requestedFrames v
       /\ Viewer.isAnimationPendingRef (Viewer.onmessage r v) = false
       /\ Viewer.drawResultRef (Viewer.onmessage r v) = Viewer.drawResultRef v)
      \/ (Viewer.requestedFrames (Viewer.onmessage r v)
          = S (Viewer.requestedFrames v)
          /\ Viewer.isAnimationPendingRef (Viewer.onmessage r v) = true)).
Proof.
  destruct v as [[c|] p n sh lg]; unfold Viewer.onmessage, Viewer.updateCanvas;
    cbn; try destruct (timestamp c >? timestamp r); cbn;
    destruct p; cbn; split; intros H; try discriminate; auto.
Qed.

Lemma deliver_pending (results : list DrawResult) :
  forall v,
    Viewer.isAnimationPendingRef v = true ->
    Viewer.requestedFrames (Viewer.deliver results v) = Viewer.requestedFrames v
    /\ Viewer.isAnimationPendingRef (Viewer.deliver results v) = true.
Proof.
  induction results as [|r rest IH]; intros v Hp; [auto |].
  change (Viewer.deliver (r :: rest) v)
    with (Viewer.deliver rest (Viewer.onmessage r v)).
  destruct (proj1 (onmessage_frames r v) Hp) as [Hn Hp'].
  destruct (IH _ Hp') as [Hn' Hp'']. split; congruence.
Qed.

End Redraw.

Lemma deliver_frames (results : list DrawResult) :
  forall v,
    Viewer.isAnimationPendingRef v = false ->
    (allDropped results v
     /\ Viewer.requestedFrames (Viewer.deliver results v)
        = Viewer.requestedFrames v
     /\ Viewer.isAnimationPendingRef (Viewer.deliver results v) = false
     /\ Viewer.drawResultRef (Viewer.deliver results v)
        = Viewer.drawResultRef v)
    \/ (~ allDropped results v
        /\ Viewer.requestedFrames (Viewer.deliver results v)
           = S (Viewer.requestedFrames v)
        /\ Viewer.isAnimationPendingRef (Viewer.deliver results v) = true).
Proof.
  induction results as [|r rest IH]; intros v Hp.
  - left. unfold allDropped. cbn.
    destruct (Viewer.drawResultRef v); repeat split; auto.
  - change (Viewer.deliver (r :: rest) v)
      with (Viewer.deliver rest (Viewer.onmessage r v)).
    destruct v as [[c|] p n sh lg]; cbn in Hp; subst p.
    + destruct (Z.gtb_spec (timestamp c) (timestamp r)) as [Hgt | Hle].
      * assert (E : Viewer.onmessage r (Viewer.Build (Some c) false n sh lg)
                    = Viewer.Build (Some c) false n sh
                        (lg ++ [timestamp r - timestamp c])).
        { unfold Viewer.onmessage. cbn.
          replace (timestamp c >? timestamp r) with true
            by (symmetry; apply Z.gtb_lt; lia).
          reflexivity. }
        rewrite E.
        destruct (IH (Viewer.Build (Some c) false n sh
                        (lg ++ [timestamp r - timestamp c])) eq_refl)
          as [(Hd & Hn & Hq & Hs) | (Hd & Hn & Hq)].
        -- left. unfold allDropped in *. cbn in *.
           repeat split; auto. constructor; [lia | exact Hd].
        -- right. unfold allDropped in *. cbn in *.
           repeat split; auto. intros Hall. apply Hd.
           now apply Forall_inv_tail in Hall.
      * assert (E : Viewer.onmessage r (Viewer.Build (Some c) false n sh lg)
                    = Viewer.Build (Some r) true (S n) sh
                        (lg ++ [timestamp r - timestamp c])).
        { unfold Viewer.onmessage, Viewer.updateCanvas. cbn.
          replace (timestamp c >? timestamp r) with false
            by (symmetry; destruct (Z.gtb_spec (timestamp c) (timestamp r));
                [lia | reflexivity]).
          reflexivity. }
        rewrite E.
        destruct (deliver_pending rest
                    (Viewer.Build (Some r) true (S n) sh
                       (lg ++ [timestamp r - timestamp c])) eq_refl)
          as [Hn Hq].
        right. unfold allDropped. cbn in *. repeat split; auto.
        intros Hall. apply Forall_inv in Hall. lia.
    + assert (E : Viewer.onmessage r (Viewer.Build None false n sh lg)
                  = Viewer.Build (Some r) true (S n) sh lg)
        by reflexivity.
      rewrite E.
      destruct (deliver_pending rest (Viewer.Build (Some r) true (S n) sh lg)
                  eq_refl) as [Hn Hq].
      right. unfold allDropped. cbn in *. repeat split; auto. discriminate.
Qed.

(** X18.  Redraws are coalesced: however many results are delivered between
    two animation frames, [requestAnimationFrame] is called at most once.
    While a frame is pending it is not called at all.  With no frame
    pending it is not called either when every result is dropped, and the
    slot and the flag stay as they are; it is called just once, and a frame
    is pending afterwards, when one of the results is admitted.  The frame,
    when it runs with the canvas in place, shows the result that the slot
    holds then, and clears the pending flag. *)
Theorem redraws_are_coalesced :
  forall (results : list DrawResult) (v : Viewer.t),
    (Viewer.isAnimationPendingRef v = true ->
     Viewer.requestedFrames (Viewer.deliver results v)
     = Viewer.requestedFrames v
     /\ Viewer.isAnimationPendingRef (Viewer.deliver results v) = true)
    /\ (Viewer.isAnimationPendingRef v = false ->
        allDropped results v ->
        Viewer.requestedFrames (Viewer.deliver results v)
        = Viewer.requestedFrames v
        /\ Viewer.isAnimationPendingRef (Viewer.deliver results v) = false
        /\ Viewer.drawResultRef (Viewer.deliver results v)
           = Viewer.drawResultRef v)
    /\ (Viewer.isAnimationPendingRef v = false ->
        ~ allDropped results v ->
        Viewer.requestedFrames (Viewer.deliver results v)
        = S (Viewer.requestedFrames v)
        /\ Viewer.isAnimationPendingRef (Viewer.deliver results v) = true)
    /\ (forall c,
           Viewer.drawResultRef (Viewer.deliver results v) = Some c ->
           Viewer.shown (Viewer.animationFrame true (Viewer.deliver results v))
           = Some c
           /\ Viewer.isAnimationPendingRef
                (Viewer.animationFrame true (Viewer.deliver results v)) = false
           /\ Viewer.requestedFrames
                (Viewer.animationFrame true (Viewer.deliver results v))
              = Viewer.requestedFrames (Viewer.deliver results v)).
Proof.
  intros results v. split; [apply deliver_pending |]. split; [| split].
  - intros Hp Hall.
    destruct (deliver_frames results v Hp) as [(_ & H) | (Hn & _)];
      [exact H | contradiction].
  - intros Hp Hnot.
    destruct (deliver_frames results v Hp) as [(Hall & _) | (_ & H)];
      [contradiction | exact H].
  - intros c Hc. unfold Viewer.animationFrame. rewrite Hc. cbn. auto.
Qed.

Lemma redraws_are_coalesced_witness :
  let a := {| runId := "a"; timestamp := 5;
              result_viewport := Build_Rectangle 0 0 800 600; bitmap := [] |} in
  let b := {| runId := "b"; timestamp := 7;
              result_viewport := Build_Rectangle 40 0 800 600; bitmap := [] |} in
  let shownB := Viewer.animationFrame true (Viewer.deliver [b] Viewer.initial) in
  Viewer.requestedFrames (Viewer.deliver [b] (Viewer.deliver [a] Viewer.initial))
  = Viewer.requestedFrames (Viewer.deliver [a] Viewer.initial)
  /\ Viewer.requestedFrames (Viewer.deliver [a; a] shownB)
     = Viewer.requestedFrames shownB
  /\ Viewer.requestedFrames (Viewer.deliver [a; b] Viewer.initial)
     = S (Viewer.requestedFrames Viewer.initial)
  /\ Viewer.shown
       (Viewer.animationFrame true (Viewer.deliver [a; b] Viewer.initial))
     = Some b.
Proof.
  intros a b shownB. split; [| split; [| split]].
  - exact (proj1 (proj1 (redraws_are_coalesced [b]
                           (Viewer.deliver [a] Viewer.initial)) eq_refl)).
  - refine (proj1 (proj1 (proj2 (redraws_are_coalesced [a; a] shownB))
                     eq_refl _)).
    unfold allDropped. cbn. repeat constructor.
  - refine (proj1 (proj1 (proj2 (proj2
              (redraws_are_coalesced [a; b] Viewer.initial))) eq_refl _)).
    unfold allDropped. cbn. discriminate.
  - exact (proj1 (proj2 (proj2 (proj2
             (redraws_are_coalesced [a; b] Viewer.initial))) b eq_refl)).
Defined.

(* ================================================================= *)
(** ** Dragging *)

Section Dragging.

Import UseDrag.

Lemma point_eq (a b : Point.t) :
  Point.x a = Point.x b -> Point.y a = Point.y b -> a = b.
Proof. destruct a, b; cbn; intros -> ->; reflexivity. Qed.

Lemma sum_app (deltas : list Point.t) (d : Point.t) :
  sum (deltas ++ [d]) = Point.add (sum deltas) d.
Proof. unfold sum. rewrite fold_left_app. reflexivity. Qed.

(** While the button is held, the total is the way from the last position
    back to the position [start] of the mouse down, and it is the sum of the
    deltas that [onDrag] has been given since. *)
Lemma moves_accumulate (positions : list Point.t) :
  forall (start : Point.t) (before deltas : list Point.t) (s : t),
    isDragging s = true ->
    totalDragDeltaRef s = Point.sub start (dragLastPositionRef s) ->
    onDrag s = before ++ deltas ->
    sum deltas = totalDragDeltaRef s ->
    let s' := handle_all (moves positions) s in
    isDragging s' = true
    /\ dragLastPositionRef s' = last positions (dragLastPositionRef s)
    /\ totalDragDeltaRef s' = Point.sub start (dragLastPositionRef s')
    /\ onDragEnd s' = onDragEnd s
    /\ exists deltas',
        onDrag s' = before ++ deltas'
        /\ List.length deltas'
           = (List.length deltas + List.length positions)%nat
        /\ sum deltas' = totalDragDeltaRef s'.
Proof.
  induction positions as [|p rest IH]; intros start before deltas s Hd Ht Ho Hs.
  - cbn. repeat split; auto. exists deltas. repeat split; auto.
  - change (handle_all (moves (p :: rest)) s)
      with (handle_all (moves rest) (handleMouseMove (Point.x p) (Point.y p) s)).
    set (d := Point.Build (Point.x (dragLastPositionRef s) - Point.x p)
                          (Point.y (dragLastPositionRef s) - Point.y p)).
    assert (E : handleMouseMove (Point.x p) (Point.y p) s
                = Build true (Point.Build (Point.x p) (Point.y p))
                        (Point.add (totalDragDeltaRef s) d)
                        (onDrag s ++ [d]) (onDragEnd s)).
    { unfold handleMouseMove. rewrite Hd. reflexivity. }
    rewrite E.
    destruct (IH start before (deltas ++ [d])
                (Build true (Point.Build (Point.x p) (Point.y p))
                       (Point.add (totalDragDeltaRef s) d)
                       (onDrag s ++ [d]) (onDragEnd s)))
      as (Hd' & Hl' & Ht' & He' & deltas' & Ho' & Hlen' & Hs').
    + reflexivity.
    + cbn. rewrite Ht. apply point_eq; cbn; lia.
    + cbn. rewrite Ho. now rewrite app_assoc.
    + cbn. rewrite sum_app, Hs. reflexivity.
    + cbv zeta. repeat split; auto.
      * rewrite Hl'. cbn [dragLastPositionRef].
        destruct rest as [|q rest]; [destruct p; reflexivity |].
        change (last (p :: q :: rest) (dragLastPositionRef s))
          with (last (q :: rest) (dragLastPositionRef s)).
        apply last_nonempty.
      * exists deltas'. repeat split; auto.
        rewrite Hlen'. rewrite length_app. cbn. lia.
Qed.

Lemma ignored_without_mouse_down (events : list MouseEvent) :
  forall s : t,
    isDragging s = false ->
    forallb (fun e => negb (isMouseDown e)) events = true ->
    handle_all events s = s.
Proof.
  induction events as [|e rest IH]; intros s Hd Hall; [reflexivity |].
  cbn in Hall. apply andb_true_iff in Hall as [He Hrest].
  change (handle_all (e :: rest) s) with (handle_all rest (handle e s)).
  assert (E : handle e s = s).
  { destruct e; try discriminate; cbn.
    - unfold handleMouseMove. now rewrite Hd.
    - unfold handleMouseUp. now rewrite Hd.
    - unfold handleMouseLeave. destruct s; cbn in *; subst; reflexivity. }
  rewrite E. now apply IH.
Qed.

End Dragging.

(** X19.  A drag adds up: after a mouse down at [start] and any number of
    moves, [onDrag] has been called once per move, the deltas it was given
    sum up to the total, and the total is the way from the last position of
    the mouse back to [start]; releasing the button then hands just this
    total to [onDragEnd], once. *)
Theorem drag_total_is_sum_of_deltas :
  forall (start : Point.t) (positions : list Point.t) (s : UseDrag.t),
    let held :=
      UseDrag.handle_all
        (UseDrag.MouseDown (Point.x start) (Point.y start)
         :: UseDrag.moves positions) s in
    UseDrag.isDragging held = true
    /\ UseDrag.totalDragDeltaRef held = Point.sub start (last positions start)
    /\ UseDrag.onDragEnd held = UseDrag.onDragEnd s
    /\ (exists deltas,
           UseDrag.onDrag held = UseDrag.onDrag s ++ deltas
           /\ List.length deltas = List.length positions
           /\ UseDrag.sum deltas = UseDrag.totalDragDeltaRef held)
    /\ UseDrag.onDragEnd (UseDrag.handle UseDrag.MouseUp held)
       = UseDrag.onDragEnd s ++ [Point.sub start (last positions start)]
    /\ UseDrag.isDragging (UseDrag.handle UseDrag.MouseUp held) = false.
Proof.
  intros start positions s held. subst held.
  change (UseDrag.handle_all
            (UseDrag.MouseDown (Point.x start) (Point.y start)
             :: UseDrag.moves positions) s)
    with (UseDrag.handle_all (UseDrag.moves positions)
            (UseDrag.handleMouseDown (Point.x start) (Point.y start) s)).
  destruct (moves_accumulate positions start (UseDrag.onDrag s) []
              (UseDrag.handleMouseDown (Point.x start) (Point.y start) s))
    as (Hd & Hl & Ht & He & deltas & Ho & Hlen & Hs).
  - reflexivity.
  - cbn. apply point_eq; cbn; lia.
  - cbn. now rewrite app_nil_r.
  - reflexivity.
  - cbn [UseDrag.handleMouseDown UseDrag.dragLastPositionRef
           UseDrag.onDragEnd] in Hl, He.
    assert (Hlast : last positions (Point.Build (Point.x start) (Point.y start))
                    = last positions start) by (destruct start; reflexivity).
    rewrite Hlast in Hl. rewrite Hl in Ht.
    repeat split; auto.
    + exists deltas. repeat split; auto.
    + cbn. unfold UseDrag.handleMouseUp. rewrite Hd. cbn.
      rewrite He, Ht. reflexivity.
    + cbn. unfold UseDrag.handleMouseUp. rewrite Hd. reflexivity.
Qed.

(** X20.  Leaving the element ends a drag without a call of [onDragEnd],
    and from then on moves and releases of the button are ignored until the
    next mouse down: no callback is called and the hook stays as it is. *)
Theorem mouse_leave_ends_drag_silently :
  forall (s : UseDrag.t) (events : list UseDrag.MouseEvent),
    forallb (fun e => negb (UseDrag.isMouseDown e)) events = true ->
    UseDrag.handle_all (UseDrag.MouseLeave :: events) s
    = UseDrag.handleMouseLeave s
    /\ UseDrag.isDragging (UseDrag.handle_all (UseDrag.MouseLeave :: events) s)
       = false
    /\ UseDrag.onDrag (UseDrag.handle_all (UseDrag.MouseLeave :: events) s)
       = UseDrag.onDrag s
    /\ UseDrag.onDragEnd (UseDrag.handle_all (UseDrag.MouseLeave :: events) s)
       = UseDrag.onDragEnd s.
Proof.
  intros s events Hall.
  change (UseDrag.handle_all (UseDrag.MouseLeave :: events) s)
    with (UseDrag.handle_all events (UseDrag.handleMouseLeave s)).
  rewrite ignored_without_mouse_down by (auto; reflexivity).
  repeat split.
Qed.

Lemma mouse_leave_ends_drag_silently_witness :
  let held := UseDrag.handle_all
                [UseDrag.MouseDown 100 100; UseDrag.MouseMove 90 95]
                UseDrag.initial in
  UseDrag.onDragEnd
    (UseDrag.handle_all
       [UseDrag.MouseLeave; UseDrag.MouseMove 80 80; UseDrag.MouseUp] held)
  = UseDrag.onDragEnd held.
Proof.
  intros held.
  exact (proj2 (proj2 (proj2 (mouse_leave_ends_drag_silently held
           [UseDrag.MouseMove 80 80; UseDrag.MouseUp] eq_refl)))).
Defined.

Section Requesting.

Import Requests.

Lemma add_sum (deltas : list Point.t) :
  forall c : Point.t,
    fold_left Point.add deltas c = Point.add c (UseDrag.sum deltas).
Proof.
  unfold UseDrag.sum.
  induction deltas as [|d rest IH] using rev_ind; intros c.
  - cbn. apply point_eq; cbn; lia.
  - rewrite !fold_left_app. cbn. rewrite IH.
    apply point_eq; cbn; lia.
Qed.

Lemma drag_all_spec (width height : Z) (image : ImageDimensions)
      (deltas : list Point.t) :
  forall center : Point.t,
    fst (drag_all width height image deltas center)
    = fold_left Point.add deltas center
    /\ List.length (snd (drag_all width height image deltas center))
       = List.length deltas
    /\ hd_error (rev (snd (drag_all width height image deltas center)))
       = match deltas with
         | [] => None
         | _ :: _ =>
             Some (requestDraw width height image
                     (fold_left Point.add deltas center))
         end.
Proof.
  induction deltas as [|d rest IH]; intros center; [cbn; auto |].
  cbn [drag_all handleDrag].
  destruct (IH (Point.add center d)) as (Hc & Hlen & Hlast).
  destruct (drag_all width height image rest (Point.add center d))
    as [c2 ms] eqn:E.
  cbn [fst snd] in *. repeat split.
  - exact Hc.
  - cbn. now rewrite Hlen.
  - cbn [rev fold_left]. destruct rest as [|d' rest'].
    + cbn in E. inversion E; subst. reflexivity.
    + destruct (rev ms) as [|m0 ms0] eqn:Er; [discriminate |].
      cbn in *. exact Hlast.
Qed.

End Requesting.

Lemma fold_add_x (deltas : list Point.t) :
  forall c : Point.t,
    Point.x (fold_left Point.add deltas c)
    = Point.x c + fold_right Z.add 0 (map Point.x deltas)
    /\ Point.y (fold_left Point.add deltas c)
       = Point.y c + fold_right Z.add 0 (map Point.y deltas).
Proof.
  induction deltas as [|d rest IH]; intros c.
  - cbn. lia.
  - cbn [fold_left map fold_right]. destruct (IH (Point.add c d)) as [Hx Hy].
    rewrite Hx, Hy. cbn. lia.
Qed.

Lemma requestDraw_viewport (halfWidth halfHeight : Z)
      (image : ImageDimensions) (c : Point.t) :
  Requests.requestDraw (2 * halfWidth) (2 * halfHeight) image c
  = DrawMessage
      {| imageDimensions := image;
         bufferWidth := 100;
         viewport :=
           Build_Rectangle (Point.x c - (halfWidth + 100))
                           (Point.y c - (halfHeight + 100))
                           (2 * halfWidth + 200) (2 * halfHeight + 200) |}.
Proof.
  unfold Requests.requestDraw, Requests.DRAW_MARGIN_PX.
  assert (Hw : (2 * halfWidth + 2 * 100) / 2 = halfWidth + 100).
  { replace (2 * halfWidth + 2 * 100) with ((halfWidth + 100) * 2) by lia.
    apply Z.div_mul. lia. }
  assert (Hh : (2 * halfHeight + 2 * 100) / 2 = halfHeight + 100).
  { replace (2 * halfHeight + 2 * 100) with ((halfHeight + 100) * 2) by lia.
    apply Z.div_mul. lia. }
  rewrite Hw, Hh.
  replace (2 * halfWidth + 2 * 100) with (2 * halfWidth + 200) by lia.
  replace (2 * halfHeight + 2 * 100) with (2 * halfHeight + 200) by lia.
  reflexivity.
Qed.

(** X21.  [handleDrag] moves the viewport by the deltas it is given,
    unclamped (for a viewer of even width and height): each call posts one
    draw request, and after the calls the last request asks for the viewport
    whose size is the size of the viewer plus the margin on each side and
    whose corner is the old centre plus the sum of the deltas, minus half
    that size.  Nothing keeps the corner within the image or at the
    non-negative coordinates: a single call reaches any corner. *)
Theorem handleDrag_moves_viewport_unclamped :
  forall (halfWidth halfHeight : Z) (image : ImageDimensions)
         (first : Point.t) (rest : list Point.t) (center : Point.t),
    let dragged :=
      Requests.drag_all (2 * halfWidth) (2 * halfHeight) image
        (first :: rest) center in
    let sumX := fold_right Z.add 0 (map Point.x (first :: rest)) in
    let sumY := fold_right Z.add 0 (map Point.y (first :: rest)) in
    fst dragged = Point.Build (Point.x center + sumX) (Point.y center + sumY)
    /\ List.length (snd dragged) = S (List.length rest)
    /\ hd_error (rev (snd dragged))
       = Some (DrawMessage
                 {| imageDimensions := image;
                    bufferWidth := 100;
                    viewport :=
                      Build_Rectangle
                        (Point.x center + sumX - (halfWidth + 100))
                        (Point.y center + sumY - (halfHeight + 100))
                        (2 * halfWidth + 200) (2 * halfHeight + 200) |})
    /\ (forall cornerX cornerY : Z,
           exists delta,
             snd (Requests.handleDrag (2 * halfWidth) (2 * halfHeight) image
                    delta center)
             = DrawMessage
                 {| imageDimensions := image;
                    bufferWidth := 100;
                    viewport :=
                      Build_Rectangle cornerX cornerY
                        (2 * halfWidth + 200) (2 * halfHeight + 200) |}).
Proof.
  intros halfWidth halfHeight image first rest center dragged sumX sumY.
  subst dragged.
  destruct (drag_all_spec (2 * halfWidth) (2 * halfHeight) image
              (first :: rest) center) as (Hc & Hn & Hlast).
  destruct (fold_add_x (first :: rest) center) as [Hx Hy].
  fold sumX in Hx. fold sumY in Hy.
  assert (Hfinal : fold_left Point.add (first :: rest) center
                   = Point.Build (Point.x center + sumX)
                                 (Point.y center + sumY)).
  { apply point_eq; cbn [Point.x Point.y]; assumption. }
  rewrite Hfinal in Hc, Hlast.
  split; [exact Hc |]. split; [exact Hn |]. split.
  - rewrite Hlast. rewrite requestDraw_viewport. reflexivity.
  - intros cornerX cornerY.
    exists (Point.Build (cornerX + (halfWidth + 100) - Point.x center)
                        (cornerY + (halfHeight + 100) - Point.y center)).
    unfold Requests.handleDrag. cbn [snd]. rewrite requestDraw_viewport.
    unfold Point.add. cbn [Point.x Point.y]. repeat f_equal; lia.
Qed.

(* ================================================================= *)
(** ** Superseding a run *)

(** X22.  A cancel, or a draw request that arrives within 250 ms of the
    start of the drain session or of the last result, reaches a worker with
    a parked run: it empties the slot and leaves the run parked; a draw
    request is put at the end of the buffer besides, a cancel leaves the
    buffer alone.  The parked run is superseded by this, that is, it will
    find itself cancelled at its next check, unless its id is the empty
    string (which [Math.random() = 0] gives): such a run cannot be
    superseded.  A superseded run with a row of tiles to paint, or already
    in its row loop, is a cancelled run in the sense of X9. *)
Theorem recent_request_supersedes_parked_run :
  forall (h : Worker.Host) (data : IncomingMesssage) (id : string)
         (w : Worker.t),
    well_formed w ->
    parkedRun (Worker.parked w) = Some id ->
    (action data = "cancel"
     \/ (action data = "draw"
         /\ (Worker.now h - Worker.queueProcessingStarted w < 250
             \/ exists r, Worker.lastDrawResult w = Some r
                          /\ Worker.now h < timestamp r + 250))) ->
    Worker.currentRunId (Worker.onmessage h data w) = ""
    /\ Worker.parked (Worker.onmessage h data w) = Worker.parked w
    /\ Worker.posted (Worker.onmessage h data w) = Worker.posted w
    /\ AsyncQueue.items (Worker.queue (Worker.onmessage h data w))
       = AsyncQueue.items (Worker.queue w)
         ++ (if (action data =? "draw")%string then [data] else [])
    /\ Worker.isCurrentRunCancelled id (Worker.onmessage h data w)
       = negb (id =? "")%string
    /\ (id <> "" ->
        match Worker.parked w with
        | Worker.InHeavy _ _ (Some args) => hasRows (viewport args)
        | _ => True
        end ->
        cancelledRun id (Worker.onmessage h data w)).
Proof.
  intros h data id w Hw Hk Hdata.
  pose proof Hw as (Hc & _). pose proof Hc as [Hi Hr].
  pose proof (parked_flag w id Hc Hk) as Hp.
  pose proof (onmessage_consistent h data w Hc) as Hc'.
  assert (E : Worker.onmessage h data w
              = if (action data =? "draw")%string
                then Worker.set_queue
                       (AsyncQueue.Build
                          (AsyncQueue.queue (Worker.queue w) ++ [data]) [])
                       (Worker.cancelCurrentDraw w)
                else Worker.cancelCurrentDraw w).
  { destruct Hdata as [Ha | [Ha Hrecent]].
    - rewrite Ha. cbn.
      unfold Worker.onmessage, Worker.onmessage_cancel,
        Worker.onmessage_queue.
      rewrite Ha. cbn. rewrite orb_true_r. reflexivity.
    - rewrite Ha. cbn. unfold Worker.onmessage. rewrite Ha. cbn.
      assert (Ec : Worker.onmessage_cancel h data w
                   = Worker.cancelCurrentDraw w).
      { unfold Worker.onmessage_cancel.
        replace (Worker.cancelByNewDrawRequest h data w) with true;
          [reflexivity |].
        symmetry. apply cancelByNewDrawRequest_spec. split; [exact Ha |].
        exact Hrecent. }
      rewrite Ec. rewrite onmessage_queue_processing; auto.
      rewrite Ha. discriminate. }
  rewrite E in *.
  assert (Hcancelled :
            forall w', Worker.currentRunId w' = "" ->
                       Worker.isCurrentRunCancelled id w'
                       = negb (id =? "")%string).
  { intros w' Hs. unfold Worker.isCurrentRunCancelled. rewrite Hs.
    now rewrite String.eqb_sym. }
  destruct (action data =? "draw")%string; cbn.
  - do 4 (split; [reflexivity |]). split; [now apply Hcancelled |].
    intros Hid Hrows. apply cancelledRun_intro; auto; cbn; congruence.
  - split; [reflexivity |]. split; [reflexivity |]. split; [reflexivity |].
    split; [unfold AsyncQueue.items; now rewrite app_nil_r |].
    split; [now apply Hcancelled |].
    intros Hid Hrows. apply cancelledRun_intro; auto; cbn; congruence.
Qed.

Lemma recent_request_supersedes_parked_run_witness :
  let d := {| imageDimensions := Build_ImageDimensions 10000 10000;
              bufferWidth := 100;
              viewport := Build_Rectangle 0 0 1000 800 |} in
  let w := Worker.run [(Worker.Build_Host 1000 "r1" Worker.Context2d,
                        Worker.MessageEvent (DrawMessage d))]
             Worker.initial in
  let unlucky := Worker.run [(Worker.Build_Host 1000 "" Worker.Context2d,
                              Worker.MessageEvent (DrawMessage d))]
                   Worker.initial in
  cancelledRun "r1"
    (Worker.onmessage (Worker.Build_Host 1100 "r2" Worker.Context2d)
       (DrawMessage d) w)
  /\ cancelledRun "r1"
       (Worker.onmessage (Worker.Build_Host 5000 "r2" Worker.Context2d)
          CancelMessage w)
  /\ Worker.isCurrentRunCancelled ""
       (Worker.onmessage (Worker.Build_Host 5000 "r2" Worker.Context2d)
          CancelMessage unlucky) = false.
Proof.
  intros d w unlucky.
  assert (Hw : well_formed w)
    by (apply run_well_formed, initial_well_formed).
  assert (Hu : well_formed unlucky)
    by (apply run_well_formed, initial_well_formed).
  assert (Hrows : hasRows (viewport d)) by (unfold hasRows; cbn; lia).
  split; [| split].
  - refine (proj2 (proj2 (proj2 (proj2 (proj2
              (recent_request_supersedes_parked_run
                 (Worker.Build_Host 1100 "r2" Worker.Context2d) (DrawMessage d)
                 "r1" w Hw eq_refl _)))))  _ Hrows).
    + right. split; [reflexivity |]. left. cbn. lia.
    + discriminate.
  - refine (proj2 (proj2 (proj2 (proj2 (proj2
              (recent_request_supersedes_parked_run
                 (Worker.Build_Host 5000 "r2" Worker.Context2d) CancelMessage
                 "r1" w Hw eq_refl _)))))  _ Hrows).
    + left. reflexivity.
    + discriminate.
  - refine (proj1 (proj2 (proj2 (proj2 (proj2
              (recent_request_supersedes_parked_run
                 (Worker.Build_Host 5000 "r2" Worker.Context2d) CancelMessage
                 "" unlucky Hu eq_refl _)))))).
    left. reflexivity.
Defined.

(* ================================================================= *)
(** ** The start time of the drain session *)

Section DrainStart.

Import Worker.

Implicit Types (h : Host) (w : Worker.t) (data : IncomingMesssage).

(** A timer that leaves the flag set has found it set and has not touched
    the start time. *)
Lemma timer_keeps_start h w :
  consistent w ->
  isProcessingMessages (timer h w) = true ->
  isProcessingMessages w = true
  /\ queueProcessingStarted (timer h w) = queueProcessingStarted w.
Proof.
  intros Hc Hp. pose proof Hc as [Hi Hr].
  destruct (timer_shape h w) as [E | [[Hk E] | (id & o & Hk & Ho & E)]];
    rewrite E in *.
  - auto.
  - assert (Hpw : isProcessingMessages w = true).
    { destruct (isProcessingMessages w); [reflexivity |].
      rewrite (proj1 Hi eq_refl) in Hk. discriminate. }
    split; [exact Hpw |].
    destruct (processQueue_loop_shape h w Hr)
      as [[_ E'] | (m & rest & _ & [E' | [E' | E']])];
      rewrite E' in *; cbn in *; (discriminate || reflexivity).
  - pose proof (parked_flag w id Hc Hk) as Hpw. split; [exact Hpw |].
    destruct Ho; cbn in *; (discriminate || reflexivity).
Qed.

(** A message that does not start the drain loop leaves the flag and the
    start time as they are. *)
Lemma onmessage_keeps_start h data w :
  consistent w ->
  startsDrain data w = false ->
  isProcessingMessages (onmessage h data w) = isProcessingMessages w
  /\ queueProcessingStarted (onmessage h data w) = queueProcessingStarted w.
Proof.
  intros [Hi Hr] Hs.
  destruct (onmessage_shape h data w Hr)
    as [E | [E | ([He Hc] & w1 & Hw1 & [[Hp E] | [Hp _]])]].
  - rewrite E. auto.
  - rewrite E. auto.
  - rewrite E. destruct Hw1 as [-> | ->]; auto.
  - unfold startsDrain in Hs. apply String.eqb_neq in He, Hc.
    rewrite He, Hc, Hp in Hs. discriminate.
Qed.

(** While a drain loop runs, [queueProcessingStarted] is the clock of the
    macrotask in which it was started. *)
Lemma run_tracks_start (trace : list (Host * Event)) :
  forall w (before : option Z),
    well_formed w ->
    (isProcessingMessages w = true ->
     before = Some (queueProcessingStarted w)) ->
    isProcessingMessages (run trace w) = true ->
    lastDrainStart trace w before
    = Some (queueProcessingStarted (run trace w)).
Proof.
  induction trace as [|[h ev] rest IH]; intros w before Hw Hb Hp.
  - cbn in *. auto.
  - cbn [run lastDrainStart]. apply IH; auto.
    + now apply step_well_formed.
    + pose proof Hw as (Hc & _). destruct ev as [data|]; cbn [step].
      * intros Hp'. destruct (startsDrain data w) eqn:Hs.
        -- unfold startsDrain in Hs.
           apply andb_true_iff in Hs as [Hs Hf].
           apply andb_true_iff in Hs as [He Hcn].
           apply negb_true_iff in He, Hcn, Hf.
           apply String.eqb_neq in He, Hcn.
           destruct (onmessage_starts_session h data w He Hcn Hf (proj2 Hc))
             as (_ & _ & ->).
           reflexivity.
        -- destruct (onmessage_keeps_start h data w Hc Hs) as [Hf ->].
           apply Hb. congruence.
      * intros Hp'. destruct (timer_keeps_start h w Hc Hp') as [Hf ->].
        now apply Hb.
Qed.

End DrainStart.

(** C3 as the code has it.  [queueProcessingStarted] is the time at which
    the running drain loop was started, and it is 0 while no drain loop
    runs: [finally] resets it.  For a message whose action is "draw" the
    handler calls [cancelCurrentDraw] exactly when the clock is less than
    250 ms past [queueProcessingStarted] or less than 250 ms past the
    timestamp of the last completed result.  After the first half of the
    handler the slot is thus empty exactly when one of the two holds or the
    slot was empty already; while the drain loop runs with a run installed,
    the same is true of the slot after the whole handler. *)
Theorem draw_preempts_iff_running_session_recent :
  forall (trace : list (Worker.Host * Worker.Event)) (h : Worker.Host)
         (data : IncomingMesssage),
    action data = "draw" ->
    let w := Worker.run trace Worker.initial in
    let recent :=
      Worker.now h - Worker.queueProcessingStarted w < 250
      \/ exists r, Worker.lastDrawResult w = Some r
                   /\ Worker.now h < timestamp r + 250 in
    (Worker.isProcessingMessages w = true ->
     lastDrainStart trace Worker.initial None
     = Some (Worker.queueProcessingStarted w))
    /\ (Worker.isProcessingMessages w = false ->
        Worker.queueProcessingStarted w = 0)
    /\ (recent ->
        Worker.onmessage_cancel h data w = Worker.cancelCurrentDraw w
        /\ Worker.onmessage h data w
           = Worker.onmessage_queue h data (Worker.cancelCurrentDraw w))
    /\ (~ recent ->
        Worker.onmessage_cancel h data w = w
        /\ Worker.onmessage h data w = Worker.onmessage_queue h data w)
    /\ (Worker.currentRunId (Worker.onmessage_cancel h data w) = ""
        <-> recent \/ Worker.currentRunId w = "")
    /\ (Worker.isProcessingMessages w = true ->
        Worker.currentRunId w <> "" ->
        (Worker.currentRunId (Worker.onmessage h data w) = "" <-> recent)).
Proof.
  intros trace h data Ha w recent.
  pose proof (run_well_formed trace Worker.initial initial_well_formed) as Hw.
  fold w in Hw. pose proof Hw as ([Hi Hr] & _ & _ & _ & Hz).
  destruct (draw_preempts_iff_recent h data w Ha) as (Hyes & Hno & Hslot).
  fold recent in Hyes, Hno, Hslot.
  split; [| split; [exact Hz | split; [exact Hyes | split; [exact Hno |]]]].
  - intros Hp. apply run_tracks_start; auto.
    + apply initial_well_formed.
    + discriminate.
  - split.
    + split.
      * intros Hempty.
        destruct (Worker.cancelByNewDrawRequest h data w) eqn:E.
        -- left. apply cancelByNewDrawRequest_spec in E. exact (proj2 E).
        -- right. unfold Worker.onmessage_cancel in Hempty.
           rewrite E, Ha in Hempty. exact Hempty.
      * intros [Hrec | Hempty].
        -- rewrite (proj1 (Hyes Hrec)). reflexivity.
        -- unfold Worker.onmessage_cancel.
           destruct (_ || _); [reflexivity | exact Hempty].
    + intros Hp Hid. now apply Hslot.
Qed.

Lemma draw_preempts_iff_running_session_recent_witness :
  let d := {| imageDimensions := Build_ImageDimensions 10000 10000;
              bufferWidth := 100;
              viewport := Build_Rectangle 0 0 1000 800 |} in
  let trace := [(Worker.Build_Host 1000 "r1" Worker.Context2d,
                 Worker.MessageEvent (DrawMessage d))] in
  let w := Worker.run trace Worker.initial in
  lastDrainStart trace Worker.initial None
  = Some (Worker.queueProcessingStarted w)
  /\ Worker.queueProcessingStarted Worker.initial = 0
  /\ Worker.currentRunId
       (Worker.onmessage (Worker.Build_Host 1100 "r2" Worker.Context2d)
          (DrawMessage d) w) = ""
  /\ Worker.onmessage_cancel (Worker.Build_Host 2000 "r2" Worker.Context2d)
       (DrawMessage d) w = w.
Proof.
  intros d trace w.
  split; [| split; [| split]].
  - exact (proj1 (draw_preempts_iff_running_session_recent trace
             (Worker.Build_Host 1100 "r2" Worker.Context2d) (DrawMessage d)
             eq_refl) eq_refl).
  - exact (proj1 (proj2 (draw_preempts_iff_running_session_recent []
             (Worker.Build_Host 1100 "r2" Worker.Context2d) (DrawMessage d)
             eq_refl)) eq_refl).
  - apply (proj2 (proj2 (proj2 (proj2 (proj2
             (draw_preempts_iff_running_session_recent trace
                (Worker.Build_Host 1100 "r2" Worker.Context2d) (DrawMessage d)
                eq_refl)))))).
    + reflexivity.
    + discriminate.
    + left. cbn. lia.
  - apply (proj1 (proj2 (proj2 (proj2
             (draw_preempts_iff_running_session_recent trace
                (Worker.Build_Host 2000 "r2" Worker.Context2d) (DrawMessage d)
                eq_refl))))).
    intros [H | (r & Hr & _)]; [cbn in H; lia | discriminate].
Defined.

(** C3 as the spec has it fails once a drain loop has ended.  A draw starts
    the drain loop at 1000; no drawing context is to be had, the run stops
    and the loop ends at 1101, with the id of the run still in the slot.  A
    draw that arrives at 1120, 120 ms after the drain loop last started, does
    not invalidate: the start time has been reset to 0, no result exists,
    and the slot is left as it is by the first half of the handler. *)
Lemma draw_after_ended_session_does_not_preempt :
  let d := {| imageDimensions := Build_ImageDimensions 10000 10000;
              bufferWidth := 100;
              viewport := Build_Rectangle 0 0 1000 800 |} in
  let at_ms t := Worker.Build_Host t "r1" Worker.NoContext in
  let trace := [(at_ms 1000, Worker.MessageEvent (DrawMessage d));
                (at_ms 1100, Worker.TimerFired);
                (at_ms 1101, Worker.TimerFired)] in
  let w := Worker.run trace Worker.initial in
  lastDrainStart trace Worker.initial None = Some 1000
  /\ Worker.now (at_ms 1120) - 1000 < 250
  /\ Worker.isProcessingMessages w = false
  /\ Worker.queueProcessingStarted w = 0
  /\ Worker.lastDrawResult w = None
  /\ Worker.currentRunId w = "r1"
  /\ Worker.cancelByNewDrawRequest (at_ms 1120) (DrawMessage d) w = false
  /\ Worker.onmessage_cancel (at_ms 1120) (DrawMessage d) w = w
  /\ Worker.currentRunId
       (Worker.onmessage_cancel (at_ms 1120) (DrawMessage d) w) = "r1".
Proof. cbv zeta. repeat split; vm_compute; reflexivity. Qed.
